(** * jina-mcp-tools: the two tool handlers of [src/index.js]

    The program registers two tools, [jina_reader] and [jina_search], each an
    [async] handler that builds request headers, performs one [fetch], and
    turns the answer into a result envelope.  The handlers are embedded here
    as computations in a small state-and-exception monad:

    - the state holds the JavaScript objects the handlers allocate and mutate
      (the header objects) and the list of requests handed to [fetch];
    - an exception is a thrown [Error], observed only through its [message];
    - everything the program takes from outside (the process environment, the
      network, the text of the errors the engine raises) is a field of a
      [World] the handlers are run in.

    Strings are sequences of characters held as their UTF-8 bytes. *)

From Stdlib Require Import Ascii QArith.
From stdpp Require Import gmap strings list pretty.

Close Scope Q_scope.
Open Scope string_scope.
Open Scope list_scope.
Set Warnings "-register-all".

(** ** Characters that cannot be written inside a string literal *)

(** The line feed, written [\n] in the source. *)
Definition LF : string := String (ascii_of_nat 10) EmptyString.

(** The double quote. *)
Definition DQ : string := String (ascii_of_nat 34) EmptyString.

(** The backslash. *)
Definition BS : string := String (ascii_of_nat 92) EmptyString.

(** [Array.prototype.join] on an array of strings. *)
Fixpoint join (sep : string) (parts : list string) : string :=
  match parts with
  | [] => EmptyString
  | [p] => p
  | p :: rest => p +:+ sep +:+ join sep rest
  end.


(** [String.prototype.toLowerCase], on the ASCII letters (the only strings the
    handlers lower-case are the names of the [format] enumeration). *)
Definition lower_char (c : ascii) : ascii :=
  let n := nat_of_ascii c in
  if ((65 <=? n) && (n <=? 90))%nat then ascii_of_nat (n + 32) else c.

Fixpoint toLowerCase (s : string) : string :=
  match s with
  | EmptyString => EmptyString
  | String c rest => String (lower_char c) (toLowerCase rest)
  end.

(** ** JSON values, as [JSON.parse] produces them

    A number is held as the text ECMAScript's [Number::toString] gives for
    it: this is what a template literal prints, and what [JSON.stringify]
    prints for a finite number.  The number is falsy exactly when that text
    is [0] (JSON has no NaN, and minus zero prints as [0]).  A literal too
    large for a double, such as [1e999], parses to an infinity, whose text
    is [Infinity] or [-Infinity].  An object keeps its members in the order
    the engine enumerates them. *)
Inductive json : Type :=
| JNull
| JBool (b : bool)
| JNum (repr : string)
| JStr (s : string)
| JArr (items : list json)
| JObj (members : list (string * json)).

(** A JavaScript value read from a JSON value: [None] is [undefined]. *)
Abbreviation value := (option json).

(** Own property of a parsed object. *)
Fixpoint member (k : string) (ms : list (string * json)) : value :=
  match ms with
  | [] => None
  | (k', v) :: rest => if decide (k' = k) then Some v else member k rest
  end.

(** [delete o[k]] on a parsed object. *)
Definition remove_member (k : string) (ms : list (string * json)) : list (string * json) :=
  filter (fun kv => kv.1 <> k) ms.

(** ToBoolean. *)
Definition truthy (v : value) : bool :=
  match v with
  | None => false
  | Some JNull => false
  | Some (JBool b) => b
  | Some (JNum repr) => negb (String.eqb repr "0")
  | Some (JStr s) => negb (String.eqb s EmptyString)
  | Some (JArr _) => true
  | Some (JObj _) => true
  end.

(** ** Numbers of the tool input

    A number the input schema lets through: any number but NaN.  A finite
    one is a rational. *)
Inductive number : Type :=
| Finite (q : Q)
| Infinity
| MinusInfinity.

(** ** Exceptions *)

(** What the engine itself can raise while the handlers run: a [TypeError]
    whose message text is the engine's. *)
Inductive fault : Type :=
| ReadOfNull (property : string)
    (** a property is read from [null] *)
| NoPrimitive
    (** an object with an own, non-callable [toString] is converted to a
        string *)
| NotAnArray (results : json) (count : number)
    (** [results] is truthy and not an array: comparing its [length] with
        [count], calling its [slice] or calling its [map] fails, whichever
        comes first *).

(** A thrown error; the handlers only ever read its [message]. *)
Record exn : Type := Error { message : string }.

(** The result of a computation that may throw. *)
Inductive outcome (A : Type) : Type :=
| Ok (a : A)
| Throw (e : exn).
Arguments Ok {A} a.
Arguments Throw {A} e.

#[global] Instance outcome_ret : MRet outcome := fun A a => Ok a.
#[global] Instance outcome_bind : MBind outcome := fun A B f m =>
  match m with
  | Ok a => f a
  | Throw e => Throw e
  end.

(** [Array.prototype.map] with a callback that may throw: elements are
    visited in order, with their index, and the first exception escapes. *)
Fixpoint map_indexed {A B : Type} (f : nat -> A -> outcome B) (index : nat) (l : list A)
  : outcome (list B) :=
  match l with
  | [] => Ok []
  | x :: rest =>
      y ← f index x;
      ys ← map_indexed f (S index) rest;
      mret (y :: ys)
  end.

(** ** What the program takes from outside *)

(** A header object is a JavaScript object whose properties hold a string or
    [undefined]. *)
Inductive prim : Type :=
| undefined
| str (s : string).

(** The argument of one [fetch] call: the URL and the options object, the
    [headers] being the content of the header object at the time of the
    call. *)
Record request : Type := Request {
  req_url : string;
  req_method : string;
  req_headers : gmap string prim;
  req_body : option string
}.

(** The body of a response, as the handlers can observe it: reading it fails
    with an error, or gives a text; and parsing that text as JSON
    ([response.json()], [JSON.parse(text)]) fails with an error or gives a
    value. *)
Inductive body : Type :=
| Unreadable (error : string)
| Readable (text : string) (parsed : string + json).

Record response : Type := Response {
  status : nat;
  res_body : body
}.

(** How the promise returned by [fetch] settles. *)
Inductive settled : Type :=
| Rejected (error : string)
| Fulfilled (r : response).

(** The surroundings of one tool call. *)
Record World : Type := {
  (** [process.env] *)
  env : gmap string string;
  (** the network: how [fetch] settles for a request *)
  fetch : request -> settled;
  (** [encodeURIComponent], which raises a [URIError] on a string that is
      not well-formed *)
  encodeURIComponent : string -> outcome string;
  (** the message of the [TypeError] the engine raises for a fault *)
  type_error_text : fault -> string
}.

Section Engine.
Context (w : World).

(** The engine raises a [TypeError]. *)
Definition type_error {A : Type} (f : fault) : outcome A :=
  Throw (Error (type_error_text w f)).

(** Reading property [k] of a parsed value, for the property names the
    handlers read ([data], [content], [usage], [title], [url], [description],
    [date]): none of them is inherited, so a value that is not an object has
    none, and [null] has no properties at all. *)
Definition get (v : json) (k : string) : outcome value :=
  match v with
  | JNull => type_error (ReadOfNull k)
  | JObj ms => mret (member k ms)
  | _ => mret None
  end.

(** ToString, as a template literal applies it to a parsed value.  An array
    joins its elements with commas, [null] elements printing as nothing; an
    object prints through [Object.prototype.toString] unless an own
    [toString] member (never callable in parsed JSON) hides it. *)
Fixpoint to_string (v : json) : outcome string :=
  match v with
  | JNull => mret "null"
  | JBool true => mret "true"
  | JBool false => mret "false"
  | JNum repr => mret repr
  | JStr s => mret s
  | JArr items =>
      parts ← (fix each (l : list json) : outcome (list string) :=
                 match l with
                 | [] => mret []
                 | x :: rest =>
                     p ← match x with JNull => mret EmptyString | _ => to_string x end;
                     ps ← each rest;
                     mret (p :: ps)
                 end) items;
      mret (join "," parts)
  | JObj ms =>
      match member "toString" ms with
      | Some _ => type_error NoPrimitive
      | None => mret "[object Object]"
      end
  end.

End Engine.

(** ** [JSON.stringify] *)

Definition hex_digit (n : nat) : string :=
  String.substring n 1 "0123456789abcdef".

(** One character of a string inside [QuoteJSONString]. *)
Definition quote_char (c : ascii) : string :=
  let n := nat_of_ascii c in
  if decide (n = 8) then BS +:+ "b"
  else if decide (n = 9) then BS +:+ "t"
  else if decide (n = 10) then BS +:+ "n"
  else if decide (n = 12) then BS +:+ "f"
  else if decide (n = 13) then BS +:+ "r"
  else if decide (n = 34) then BS +:+ DQ
  else if decide (n = 92) then BS +:+ BS
  else if decide (n < 32) then BS +:+ "u00" +:+ hex_digit (n / 16) +:+ hex_digit (n mod 16)
  else String c EmptyString.

Fixpoint quote_chars (s : string) : string :=
  match s with
  | EmptyString => EmptyString
  | String c rest => quote_char c +:+ quote_chars rest
  end.

Definition quote (s : string) : string := DQ +:+ quote_chars s +:+ DQ.

(** The text of an array or an object from the texts of its parts
    (SerializeJSONArray, SerializeJSONObject): [gap] is the indentation unit
    and [indent] the indentation of the enclosing value. *)
Definition enclose (opening closing gap indent : string) (parts : list string) : string :=
  match parts with
  | [] => opening +:+ closing
  | _ =>
      if String.eqb gap EmptyString
      then opening +:+ join "," parts +:+ closing
      else opening +:+ LF +:+ indent +:+ gap
             +:+ join ("," +:+ LF +:+ indent +:+ gap) parts
             +:+ LF +:+ indent +:+ closing
  end.

(** A number inside [JSON.stringify]: its text when it is finite, and [null]
    when it is an infinity. *)
Definition serialize_number (repr : string) : string :=
  if String.eqb repr "Infinity" || String.eqb repr "-Infinity" then "null" else repr.

Fixpoint serialize (gap indent : string) (v : json) : string :=
  match v with
  | JNull => "null"
  | JBool true => "true"
  | JBool false => "false"
  | JNum repr => serialize_number repr
  | JStr s => quote s
  | JArr items =>
      enclose "[" "]" gap indent (map (serialize gap (indent +:+ gap)) items)
  | JObj ms =>
      enclose "{" "}" gap indent
        (map (fun kv =>
                quote kv.1 +:+ (if String.eqb gap EmptyString then ":" else ": ")
                  +:+ serialize gap (indent +:+ gap) kv.2) ms)
  end.

Fixpoint spaces (n : nat) : string :=
  match n with
  | O => EmptyString
  | S m => " " +:+ spaces m
  end.

(** [JSON.stringify(v, null, space)] for a parsed value [v] and a number
    [space] of at most 10. *)
Definition JSON_stringify (v : json) (space : nat) : string :=
  serialize (spaces space) EmptyString v.

(** ** The monad of the handlers *)

(** A reference to a JavaScript object: its index in the store. *)
Abbreviation loc := nat.

(** The store of header objects, and the requests handed to [fetch] so far,
    oldest first. *)
Record state : Type := State {
  heap : list (gmap string prim);
  fetched : list request
}.

Definition M (A : Type) : Type := state -> outcome A * state.

#[global] Instance M_ret : MRet M := fun A a s => (Ok a, s).
#[global] Instance M_bind : MBind M := fun A B f m s =>
  match m s with
  | (Ok a, s') => f a s'
  | (Throw e, s') => (Throw e, s')
  end.

Definition run {A : Type} (m : M A) (s : state) : outcome A * state := m s.

(** A computation without effect on the state. *)
Definition lift {A : Type} (o : outcome A) : M A := fun s => (o, s).

(** [try { body } catch (error) { handler }] *)
Definition try_catch {A : Type} (body : M A) (handler : exn -> M A) : M A := fun s =>
  match body s with
  | (Ok a, s') => (Ok a, s')
  | (Throw error, s') => handler error s'
  end.

(** An object literal or a spread: a new object with the given properties. *)
Definition alloc (properties : gmap string prim) : M loc := fun s =>
  (Ok (length (heap s)), State (heap s ++ [properties]) (fetched s)).

(** The properties of an object. *)
Definition read (l : loc) : M (gmap string prim) := fun s =>
  (Ok (default ∅ (heap s !! l)), s).

(** [l[k] = v] *)
Definition write (l : loc) (k : string) (v : prim) : M unit := fun s =>
  (Ok tt, State (alter (insert k v) l (heap s)) (fetched s)).

Section Handlers.
Context (w : World).

(** [await fetch(url, options)]: the request is recorded, and the promise
    settles as the network decides. *)
Definition do_fetch (r : request) : M response := fun s =>
  let s' := State (heap s) (fetched s ++ [r]) in
  match fetch w r with
  | Rejected error => (Throw (Error error), s')
  | Fulfilled res => (Ok res, s')
  end.

(** [response.ok] *)
Definition ok (r : response) : bool :=
  ((200 <=? status r) && (status r <=? 299))%nat.

(** [await response.text()] *)
Definition response_text (r : response) : outcome string :=
  match res_body r with
  | Unreadable error => Throw (Error error)
  | Readable text _ => mret text
  end.

(** [await response.json()], and [JSON.parse(text)] on the text just read. *)
Definition response_json (r : response) : outcome json :=
  match res_body r with
  | Unreadable error => Throw (Error error)
  | Readable _ (inl error) => Throw (Error error)
  | Readable _ (inr data) => mret data
  end.

(** [index.js], lines 9-11: [process.env.JINA_API_KEY || null].  An unset
    entry and the empty string are falsy; [None] is [null]. *)
Definition getJinaApiKey : option string :=
  match env w !! "JINA_API_KEY" with
  | Some key => if String.eqb key EmptyString then None else Some key
  | None => None
  end.

(** [index.js], lines 14-23.  The parameter is [None] when the caller passes
    no argument, and the default [{}] is spread. *)
Definition createHeaders (baseHeaders : option loc) : M loc :=
  properties ← match baseHeaders with
               | Some base => read base
               | None => mret ∅
               end;
  headers ← alloc properties;
  let apiKey := getJinaApiKey in
  match apiKey with
  | Some key =>
      if String.eqb key EmptyString
      then mret tt
      else write headers "Authorization" (str ("Bearer " +:+ key))
  | None => mret tt
  end;;
  mret headers.

(** The result envelope of a tool call: one text block, and the [isError]
    flag ([false] when the envelope carries no such flag).  The text is the
    JavaScript value the handler puts there. *)
Record envelope : Type := Envelope {
  content_text : json;
  isError : bool
}.

(** [catch (error) { return { ..., isError: true } }], lines 81-89 and
    168-176. *)
Definition error_envelope (error : exn) : envelope :=
  {| content_text := JStr ("Error: " +:+ message error); isError := true |}.

(** [v || d] *)
Definition or_else (v : value) (d : json) : json :=
  match v with
  | Some x => if truthy v then x else d
  | None => d
  end.

(** *** The reader tool *)

Inductive Format : Type :=
| Default | Markdown | HTML | Text | Screenshot | Pageshot.

Definition format_name (f : Format) : string :=
  match f with
  | Default => "Default"
  | Markdown => "Markdown"
  | HTML => "HTML"
  | Text => "Text"
  | Screenshot => "Screenshot"
  | Pageshot => "Pageshot"
  end.

(** The validated input of [jina_reader], defaults filled in. *)
Record reader_args : Type := {
  url : string;
  format : Format;
  withLinks : bool;
  withImages : bool;
  useReaderLM : bool
}.

(** The object literal of lines 51-61. *)
Definition reader_headers (a : reader_args) : gmap string prim :=
  list_to_map [
    ("Content-Type", str "application/json");
    ("Accept", str "application/json");
    ("X-With-Links-Summary", str (if withLinks a then "true" else "false"));
    ("X-With-Images-Summary", str (if withImages a then "true" else "false"));
    ("X-Return-Format", str (toLowerCase (format_name (format a))));
    ("X-Respond-With", if useReaderLM a then str "readerlm-v2" else undefined);
    ("X-With-Generated-Alt", str "true");
    ("X-With-Iframe", str "true");
    ("X-With-Shadow-Dom", str "true")
  ].

(** Lines 69-80: what the handler makes of the response. *)
Definition reader_reply (r : response) : outcome envelope :=
  if negb (ok r) then
    errorText ← response_text r;
    Throw (Error ("Jina Reader API error (" +:+ pretty (status r) +:+ "): " +:+ errorText))
  else
    data ← response_json r;
    inner ← get w data "data";
    content ← match inner with
              | None | Some JNull => mret None
              | Some d => get w d "content"
              end;
    mret {| content_text := or_else content (JStr (JSON_stringify data 2));
            isError := false |}.

(** The handler of [jina_reader], lines 49-90. *)
Definition jina_reader (a : reader_args) : M envelope :=
  try_catch
    (base ← alloc (reader_headers a);
     headers ← createHeaders (Some base);
     sent ← read headers;
     response ← do_fetch {|
       req_url := "https://r.jina.ai/";
       req_method := "POST";
       req_headers := sent;
       req_body := Some (JSON_stringify (JObj [("url", JStr (url a))]) 0)
     |};
     lift (reader_reply response))
    (fun error => mret (error_envelope error)).

(** *** The search tool *)

Inductive ReturnFormat : Type :=
| RF_markdown | RF_text | RF_html.

(** The validated input of [jina_search], defaults filled in.  [count] may
    be negative, fractional or infinite: the schema asks for a number and
    nothing more.  [siteFilter] is [None] when absent. *)
Record search_args : Type := {
  query : string;
  count : number;
  returnFormat : ReturnFormat;
  siteFilter : option string
}.

(** The object literal of lines 109-113. *)
Definition search_headers : gmap string prim :=
  list_to_map [
    ("Accept", str "application/json");
    ("X-Respond-With", str "no-content");
    ("X-With-Favicons", str "true")
  ].

(** ToIntegerOrInfinity on a finite number: truncation towards zero. *)
Definition truncate (q : Q) : Z := Z.quot (Qnum q) (Zpos (Qden q)).

(** [l.slice(0, e)] on an array: a negative end counts from the end of the
    array. *)
Definition slice_to {A : Type} (l : list A) (e : number) : list A :=
  match e with
  | Finite q =>
      let k := truncate q in
      if (k <? 0)%Z then take (Z.to_nat (Z.of_nat (length l) + k)) l
      else take (Z.to_nat k) l
  | Infinity => l
  | MinusInfinity => []
  end.

(** [count && count > 0 && len > count], for the length [len] of an array. *)
Definition exceeds (len : nat) (count : number) : bool :=
  match count with
  | Finite q =>
      negb (Qeq_bool q 0)
      && negb (Qle_bool q 0)
      && negb (Qle_bool (inject_Z (Z.of_nat len)) q)
  | Infinity => false
  | MinusInfinity => false
  end.

(** Lines 133-137: [data.data || []], cut to [count] items.  A truthy
    [data.data] that is not an array has no [map] (parsed JSON holds no
    function), so the handler stops on a [TypeError] at line 135, 136 or
    139, before anything else happens. *)
Definition select_results (count : number) (data : json) : outcome (list json) :=
  d ← get w data "data";
  match or_else d (JArr []) with
  | JArr results =>
      if exceeds (length results) count
      then mret (slice_to results count)
      else mret results
  | other => type_error w (NotAnArray other count)
  end.

(** The callback of line 139-142: [if (result.usage) delete result.usage]. *)
Definition strip_usage (result : json) : outcome json :=
  usage ← get w result "usage";
  if truthy usage then
    match result with
    | JObj ms => mret (JObj (remove_member "usage" ms))
    | _ => mret result
    end
  else mret result.

(** The interpolation of [result.k || fallback] into a template. *)
Definition field_text (result : json) (k fallback : string) : outcome string :=
  v ← get w result k;
  to_string w (or_else v (JStr fallback)).

(** The interpolation of [result.date ? `Date: ${result.date}` : ''] (the two
    reads of [result.date] give the same value). *)
Definition date_text (result : json) : outcome string :=
  date ← get w result "date";
  match date with
  | Some d =>
      if truthy date then (s ← to_string w d; mret ("Date: " +:+ s))
      else mret EmptyString
  | None => mret EmptyString
  end.

(** The template of line 147. *)
Definition markdown_entry (index : nat) (result : json) : outcome string :=
  title ← field_text result "title" "Untitled";
  url ← field_text result "url" EmptyString;
  description ← field_text result "description" EmptyString;
  date ← date_text result;
  mret (pretty (index + 1)%nat +:+ ". **" +:+ title +:+ "**" +:+ LF
          +:+ "   " +:+ url +:+ LF
          +:+ "   " +:+ description +:+ LF
          +:+ "   " +:+ date +:+ LF).

(** The template of lines 151-154; its continuation lines start with eleven
    spaces. *)
Definition html_entry (index : nat) (result : json) : outcome string :=
  title ← field_text result "title" "Untitled";
  url ← field_text result "url" EmptyString;
  description ← field_text result "description" EmptyString;
  date ← date_text result;
  mret ("<li><strong>" +:+ title +:+ "</strong><br>" +:+ LF
          +:+ "           <a href=" +:+ DQ +:+ url +:+ DQ +:+ ">" +:+ url +:+ "</a><br>" +:+ LF
          +:+ "           " +:+ description +:+ "<br>" +:+ LF
          +:+ "           " +:+ date +:+ "</li>").

(** The template of line 158. *)
Definition text_entry (index : nat) (result : json) : outcome string :=
  title ← field_text result "title" "Untitled";
  url ← field_text result "url" EmptyString;
  description ← field_text result "description" EmptyString;
  date ← date_text result;
  mret (pretty (index + 1)%nat +:+ ". " +:+ title +:+ LF
          +:+ "   " +:+ url +:+ LF
          +:+ "   " +:+ description +:+ LF
          +:+ "   " +:+ date).

(** Lines 144-160: the three renderers. *)
Definition format_results (returnFormat : ReturnFormat) (results : list json)
  : outcome string :=
  match returnFormat with
  | RF_markdown =>
      entries ← map_indexed markdown_entry 0 results;
      mret (join LF entries)
  | RF_html =>
      entries ← map_indexed html_entry 0 results;
      mret ("<ol>" +:+ join EmptyString entries +:+ "</ol>")
  | RF_text =>
      entries ← map_indexed text_entry 0 results;
      mret (join (LF +:+ LF) entries)
  end.

(** Lines 126-167: what the handler makes of the response. *)
Definition search_reply (a : search_args) (r : response) : outcome envelope :=
  if negb (ok r) then
    errorText ← response_text r;
    Throw (Error ("Jina Search API error (" +:+ pretty (status r) +:+ "): " +:+ errorText))
  else
    _ ← response_text r;
    data ← response_json r;
    results ← select_results (count a) data;
    results ← map_indexed (fun _ => strip_usage) 0 results;
    formattedOutput ← format_results (returnFormat a) results;
    mret {| content_text := JStr formattedOutput; isError := false |}.

(** The handler of [jina_search], lines 106-177. *)
Definition jina_search (a : search_args) : M envelope :=
  try_catch
    (encodedQuery ← lift (encodeURIComponent w (query a));
     baseHeaders ← alloc search_headers;
     match siteFilter a with
     | Some site =>
         if String.eqb site EmptyString
         then mret tt
         else write baseHeaders "X-Site" (str ("https://" +:+ site))
     | None => mret tt
     end;;
     headers ← createHeaders (Some baseHeaders);
     sent ← read headers;
     response ← do_fetch {|
       req_url := "https://s.jina.ai/?q=" +:+ encodedQuery;
       req_method := "GET";
       req_headers := sent;
       req_body := None
     |};
     lift (search_reply a response))
    (fun error => mret (error_envelope error)).

End Handlers.

(** ** Sample surroundings, for running the handlers *)

Definition HEX_digit (n : nat) : string :=
  String.substring n 1 "0123456789ABCDEF".

(** A character [encodeURIComponent] leaves as it is. *)
Definition unreserved (c : ascii) : bool :=
  let n := nat_of_ascii c in
  (((65 <=? n) && (n <=? 90)) || ((97 <=? n) && (n <=? 122)) || ((48 <=? n) && (n <=? 57)))%nat
  || bool_decide (c ∈ ["-"; "_"; "."; "!"; "~"; "*"; "'"; "("; ")"]%char).

(** [encodeURIComponent] on a well-formed string: every other byte of the
    UTF-8 text is percent-encoded.  It does not throw. *)
Fixpoint percent_encode (s : string) : string :=
  match s with
  | EmptyString => EmptyString
  | String c rest =>
      (if unreserved c then String c EmptyString
       else "%" +:+ HEX_digit (nat_of_ascii c / 16) +:+ HEX_digit (nat_of_ascii c mod 16))
      +:+ percent_encode rest
  end.

(** [TypeError] messages in the wording of Node.js.  For [NotAnArray] this is
    the wording of the failing [results.map] call, where Node stops for every
    string and for every value without an own [length] member; an object with
    a [length] member can fail earlier, at the comparison or at
    [results.slice], with another wording, and no sample below holds one. *)
Definition node_text (f : fault) : string :=
  match f with
  | ReadOfNull property => "Cannot read properties of null (reading '" +:+ property +:+ "')"
  | NoPrimitive => "Cannot convert object to primitive value"
  | NotAnArray _ _ => "results.map is not a function"
  end.

(** A world with the given environment in which every request is answered
    the same way. *)
Definition stub (environment : gmap string string) (answer : settled) : World := {|
  env := environment;
  fetch := fun _ => answer;
  encodeURIComponent := fun s => Ok (percent_encode s);
  type_error_text := node_text
|}.

(** A 200 response whose body is the JSON text of [data]. *)
Definition ok_response (data : json) : response :=
  {| status := 200; res_body := Readable (JSON_stringify data 0) (inr data) |}.

Definition json_response (data : json) : settled := Fulfilled (ok_response data).

(** The stubbed reader answer of the end-to-end example. *)
Definition hello : json := JObj [("data", JObj [("content", JStr "Hello")])].

(** A reader answer whose content is present and empty. *)
Definition empty_page : json := JObj [("data", JObj [("content", JStr EmptyString)])].

(** A store holding one caller-owned header object. *)
Definition one_object : state := State [{[ "Accept" := str "text/plain" ]}] [].

(** An upstream that answers 404 with a plain-text body. *)
Definition not_found : settled :=
  Fulfilled {| status := 404; res_body := Readable "no such page" (inl "Unexpected token") |}.

(** The empty store, before any call. *)
Definition initial : state := State [] [].

Definition example_reader_args : reader_args := {|
  url := "https://example.com";
  format := Default;
  withLinks := false;
  withImages := false;
  useReaderLM := false
|}.

Definition example_search_args (n : Q) (f : ReturnFormat) : search_args := {|
  query := "rust";
  count := Finite n;
  returnFormat := f;
  siteFilter := None
|}.

(** A search result with a title, a URL and a description, dated or not. *)
Definition example_item (name : string) (date : option string) : json :=
  JObj ([("title", JStr name);
         ("url", JStr ("https://example.com/" +:+ name));
         ("description", JStr ("About " +:+ name))]
          ++ match date with
             | Some d => [("date", JStr d)]
             | None => []
             end).

(** An upstream answer with five results, the second of them dated. *)
Definition five_items : list json :=
  [example_item "a" None; example_item "b" (Some "2024-01-01"); example_item "c" None;
   example_item "d" None; example_item "e" None].

Definition five_results : json := JObj [("data", JArr five_items)].

(** An upstream answer with one result that has no date. *)
Definition one_dateless : json := JObj [("data", JArr [example_item "a" None])].

(** An upstream answer whose [data] is an object, not an array. *)
Definition data_object : json := JObj [("data", JObj [])].

(** ** Vocabulary of the statements *)

(** The properties [createHeaders] gives the object it returns, from the
    properties it copies. *)
Definition authorize (w : World) (properties : gmap string prim) : gmap string prim :=
  match getJinaApiKey w with
  | Some key => <["Authorization" := str ("Bearer " +:+ key)]> properties
  | None => properties
  end.

(** The header object a search starts from, after the optional [X-Site]
    assignment of lines 115-117. *)
Definition search_base (a : search_args) : gmap string prim :=
  match siteFilter a with
  | Some site =>
      if String.eqb site EmptyString then search_headers
      else <["X-Site" := str ("https://" +:+ site)]> search_headers
  | None => search_headers
  end.

(** The envelope a handler returns for the outcome of its [try] block. *)
Definition settle (o : outcome envelope) : envelope :=
  match o with
  | Ok e => e
  | Throw error => error_envelope error
  end.

(** The outcome of awaiting a [fetch] and handling its response. *)
Definition answer (w : World) (reply : response -> outcome envelope) (r : request)
  : outcome envelope :=
  match fetch w r with
  | Rejected error => Throw (Error error)
  | Fulfilled res => reply res
  end.

(** The request the reader hands to [fetch]. *)
Definition reader_request (w : World) (a : reader_args) : request := {|
  req_url := "https://r.jina.ai/";
  req_method := "POST";
  req_headers := authorize w (reader_headers a);
  req_body := Some (JSON_stringify (JObj [("url", JStr (url a))]) 0)
|}.

(** The request the search hands to [fetch], once the query is encoded. *)
Definition search_request (w : World) (a : search_args) (encodedQuery : string) : request := {|
  req_url := "https://s.jina.ai/?q=" +:+ encodedQuery;
  req_method := "GET";
  req_headers := authorize w (search_base a);
  req_body := None
|}.

(** Running [m] from [s] hands [req] to [fetch]. *)
Definition sends {A : Type} (m : M A) (s : state) (req : request) : Prop :=
  exists reqs, fetched (run m s).2 = fetched s ++ reqs /\ req ∈ reqs.

(** The same world with [JINA_API_KEY] removed from the environment. *)
Definition unset (w : World) : World := {|
  env := delete "JINA_API_KEY" (env w);
  fetch := fetch w;
  encodeURIComponent := encodeURIComponent w;
  type_error_text := type_error_text w
|}.



(** The request of the run of [m] from [s] was answered by the response
    [r]. *)
Definition answered {A : Type} (w : World) (m : M A) (s : state) (r : response) : Prop :=
  exists req, sends m s req /\ fetch w req = Fulfilled r.

(** [r] is a 2xx response whose body is the JSON text of [data]. *)
Definition json_body (r : response) (data : json) : Prop :=
  ok r = true /\ exists text, res_body r = Readable text (inr data).

(** Property [k] of a parsed value other than [null], for the property names
    the handlers read. *)
Definition own (v : json) (k : string) : value :=
  match v with
  | JObj ms => member k ms
  | _ => None
  end.

(** [data.data?.content] on a parsed body other than [null]. *)
Definition nested_content (data : json) : value :=
  match own data "data" with
  | Some d => own d "content"
  | None => None
  end.

(** The upstream result list: [data.data] when it is an array. *)
Definition result_list (data : json) : option (list json) :=
  match own data "data" with
  | Some (JArr results) => Some results
  | _ => None
  end.

(** A field of a search result holds a string, or is absent. *)
Definition textual (v : value) : bool :=
  match v with
  | None | Some (JStr _) => true
  | _ => false
  end.

(** A search result item of the data model: an object whose [title], [url],
    [description] and [date], where present, are strings. *)
Definition is_item (result : json) : bool :=
  match result with
  | JObj _ =>
      textual (own result "title") && textual (own result "url")
      && textual (own result "description") && textual (own result "date")
  | _ => false
  end.



(** [s] ends with [t]. *)
Definition ends_with (s t : string) : Prop := exists before, s = before +:+ t.

(** ** Startup: [main], lines 182-209 *)

(** The number of UTF-16 code units a byte of well-formed UTF-8 text stands
    for: a continuation byte adds none, the lead byte of a four-byte sequence
    (a character outside the basic plane, a surrogate pair) counts for two,
    every other byte for one. *)
Definition utf16_units (c : ascii) : nat :=
  let n := nat_of_ascii c in
  if ((128 <=? n) && (n <=? 191))%nat then 0%nat
  else if (240 <=? n)%nat then 2%nat
  else 1%nat.

(** [s.length] *)
Fixpoint utf16_length (s : string) : nat :=
  match s with
  | EmptyString => 0%nat
  | String c rest => (utf16_units c + utf16_length rest)%nat
  end.

Inductive console_method : Type :=
| console_error
| console_warn.

(** An argument of a console call: a string, or a caught error object. *)
Inductive console_arg : Type :=
| Message (s : string)
| Caught (e : exn).

(** What the process has shown of itself: the console calls so far, oldest
    first, and the exit status once [process.exit] was called. *)
Record process : Type := Process {
  console : list (console_method * list console_arg);
  exit_code : option nat
}.

(** How a piece of the startup code ends: normally, by a thrown error, or
    because the process has exited. *)
Inductive completion (A : Type) : Type :=
| Normal (a : A)
| Abrupt (e : exn)
| Exited.
Arguments Normal {A} a.
Arguments Abrupt {A} e.
Arguments Exited {A}.

Definition P (A : Type) : Type := process -> completion A * process.

#[global] Instance P_ret : MRet P := fun A a p => (Normal a, p).
#[global] Instance P_bind : MBind P := fun A B f m p =>
  match m p with
  | (Normal a, p') => f a p'
  | (Abrupt e, p') => (Abrupt e, p')
  | (Exited, p') => (Exited, p')
  end.

(** [try { body } catch (error) { handler }], and [promise.catch(handler)]. *)
Definition P_catch {A : Type} (body : P A) (handler : exn -> P A) : P A := fun p =>
  match body p with
  | (Abrupt error, p') => handler error p'
  | other => other
  end.

(** [console.error(...)] and [console.warn(...)] *)
Definition print (m : console_method) (args : list console_arg) : P unit := fun p =>
  (Normal tt, Process (console p ++ [(m, args)]) (exit_code p)).

(** [process.exit(code)]: nothing runs after it. *)
Definition exit {A : Type} (code : nat) : P A := fun p =>
  (Exited, Process (console p) (Some code)).

(** Awaiting something the program does not define. *)
Definition await {A : Type} (o : outcome A) : P A := fun p =>
  match o with
  | Ok a => (Normal a, p)
  | Throw e => (Abrupt e, p)
  end.

(** [main], lines 182-203.  [connect] is how creating the transport and
    awaiting [server.connect(transport)] ends. *)
Definition main (w : World) (connect : outcome unit) : P unit :=
  P_catch
    (let apiKey := getJinaApiKey w in
     match apiKey with
     | Some key =>
         if String.eqb key EmptyString
         then print console_error
                [Message "No Jina AI API key found. Some features may be limited."]
         else
           print console_error
             [Message ("Jina AI API key found with length " +:+ pretty (utf16_length key))];;
           if (utf16_length key <? 10)%nat
           then print console_warn
                  [Message "Warning: JINA_API_KEY seems too short. Please verify your API key."]
           else mret tt
     | None =>
         print console_error
           [Message "No Jina AI API key found. Some features may be limited."]
     end;;
     await connect)
    (fun error =>
       print console_error [Message "Server error:"; Caught error];;
       exit 1).

(** The last statement of the file, lines 206-209. *)
Definition start (w : World) (connect : outcome unit) : P unit :=
  P_catch (main w connect)
    (fun error =>
       print console_error [Message "Fatal error in main():"; Caught error];;
       exit 1).

(** A process that has printed nothing yet. *)
Definition silent : process := Process [] None.

(** ** Further samples *)

(** A result that carries a [usage] record and a field no renderer reads. *)
Definition metered_item : json :=
  JObj [("title", JStr "a");
        ("url", JStr "https://example.com/a");
        ("usage", JObj [("tokens", JNum "1000")]);
        ("description", JStr "About a");
        ("favicon", JStr "https://example.com/favicon.ico")].

(** An upstream answer with that one result. *)
Definition one_metered : json := JObj [("data", JArr [metered_item])].

(** An upstream answer whose second result is [null]. *)
Definition null_second : json := JObj [("data", JArr [metered_item; JNull])].

(** A reader answer with an empty content and a number that overflowed to
    an infinity when it was parsed. *)
Definition overflowing_page : json :=
  JObj [("data", JObj [("content", JStr EmptyString)]); ("n", JNum "Infinity")].

(** The 200 response that parses to it: the body writes the number as
    [1e999]. *)
Definition overflowing_response : response :=
  {| status := 200;
     res_body :=
       Readable ("{" +:+ DQ +:+ "data" +:+ DQ +:+ ":{" +:+ DQ +:+ "content" +:+ DQ +:+ ":"
                   +:+ DQ +:+ DQ +:+ "}," +:+ DQ +:+ "n" +:+ DQ +:+ ":1e999}")
                (inr overflowing_page) |}.


(** A result without a title. *)
Definition untitled_item : json :=
  JObj [("url", JStr "https://example.com/u"); ("description", JStr "About u")].

(** ** Vocabulary of the further statements *)

(** [s] starts with [t]. *)
Definition starts_with (s t : string) : Prop := exists rest, s = t +:+ rest.

(** Two results show the same to a renderer: neither is [null], and they
    agree on [title], [url], [description] and [date]. *)
Definition same_fields (r r' : json) : Prop :=
  r <> JNull /\ r' <> JNull
  /\ forall k, k ∈ ["title"; "url"; "description"; "date"] -> own r k = own r' k.

(** The same world on another network. *)
Definition with_fetch (w : World) (network : request -> settled) : World := {|
  env := env w;
  fetch := network;
  encodeURIComponent := encodeURIComponent w;
  type_error_text := type_error_text w
|}.

(** [count] is at least [n]. *)
Definition at_least (count : number) (n : nat) : Prop :=
  match count with
  | Finite q => (inject_Z (Z.of_nat n) <= q)%Q
  | Infinity => True
  | MinusInfinity => False
  end.

(** The envelope of a search whose retained results are [kept]: their
    rendering, or the error envelope of the exception the rendering throws. *)
Definition rendering (w : World) (f : ReturnFormat) (kept : list json) : envelope :=
  settle (out ← format_results w f kept;
          mret {| content_text := JStr out; isError := false |}).

(** What the search keeps of an upstream list: lines 135-137. *)
Definition kept_results (count : number) (results : list json) : list json :=
  if exceeds (length results) count then slice_to results count else results.



(** ** The monad and the store *)

Lemma run_bind {A B : Type} (m : M A) (f : A -> M B) (s : state) :
  run (m ≫= f) s =
  match run m s with
  | (Ok a, s') => run (f a) s'
  | (Throw e, s') => (Throw e, s')
  end.
Proof. reflexivity. Qed.

Lemma run_try_catch {A : Type} (body : M A) (handler : exn -> M A) (s : state) :
  run (try_catch body handler) s =
  match run body s with
  | (Ok a, s') => (Ok a, s')
  | (Throw error, s') => run (handler error) s'
  end.
Proof. reflexivity. Qed.

Lemma alter_last {A : Type} (f : A -> A) (l : list A) (x : A) :
  alter f (length l) (l ++ [x]) = l ++ [f x].
Proof.
  replace (length l) with (length l + 0)%nat by lia.
  now rewrite alter_app_r.
Qed.

Lemma lookup_last {A : Type} (l : list A) (x : A) :
  (l ++ [x]) !! length l = Some x.
Proof. apply list_lookup_middle. reflexivity. Qed.

Lemma getJinaApiKey_nonempty (w : World) (key : string) :
  getJinaApiKey w = Some key -> String.eqb key EmptyString = false.
Proof.
  unfold getJinaApiKey. destruct (env w !! "JINA_API_KEY") as [k|]; [|discriminate].
  destruct (String.eqb k EmptyString) eqn:E; [discriminate|].
  intros [= <-]. exact E.
Qed.

(** What one call of [createHeaders] does to the store. *)
Lemma createHeaders_run (w : World) (base : loc) (s : state) :
  run (createHeaders w (Some base)) s =
  (Ok (length (heap s)),
   State (heap s ++ [authorize w (default ∅ (heap s !! base))]) (fetched s)).
Proof.
  unfold createHeaders, authorize.
  rewrite run_bind. unfold run at 1, read at 1. cbn [fst snd].
  rewrite run_bind. unfold run at 1, alloc at 1. cbn [heap fetched].
  destruct (getJinaApiKey w) as [key|] eqn:K.
  - rewrite (getJinaApiKey_nonempty w key K).
    unfold run, mbind, M_bind, write, mret, M_ret. cbn [heap fetched].
    now rewrite alter_last.
  - reflexivity.
Qed.

(** ** One run of each handler *)

(** The reader allocates its two header objects, hands one request to
    [fetch], and returns an envelope whatever happens. *)
Lemma jina_reader_run (w : World) (a : reader_args) (s : state) :
  run (jina_reader w a) s =
  (Ok (settle (answer w (reader_reply w) (reader_request w a))),
   State (heap s ++ [reader_headers a; authorize w (reader_headers a)])
         (fetched s ++ [reader_request w a])).
Proof.
  unfold jina_reader. rewrite run_try_catch, run_bind.
  unfold run at 1, alloc at 1.
  rewrite run_bind, createHeaders_run. cbn [heap fetched].
  rewrite lookup_last. cbn [default]. unfold id.
  rewrite run_bind. unfold run at 1, read at 1. cbn [heap].
  rewrite lookup_last. cbn [default]. unfold id.
  rewrite run_bind. unfold run at 1, do_fetch at 1. cbn [heap fetched].
  fold (reader_request w a). unfold answer.
  rewrite <- app_assoc. cbn [app].
  destruct (fetch w (reader_request w a)) as [error|res]; [reflexivity|].
  unfold run, lift. destruct (reader_reply w res); reflexivity.
Qed.

(** The search stops before any allocation when the query cannot be
    encoded; otherwise it behaves as the reader does. *)
Lemma jina_search_run (w : World) (a : search_args) (s : state) :
  run (jina_search w a) s =
  match encodeURIComponent w (query a) with
  | Throw error => (Ok (error_envelope error), s)
  | Ok q =>
      (Ok (settle (answer w (search_reply w a) (search_request w a q))),
       State (heap s ++ [search_base a; authorize w (search_base a)])
             (fetched s ++ [search_request w a q]))
  end.
Proof.
  unfold jina_search. rewrite run_try_catch, run_bind.
  unfold run at 1, lift at 1.
  destruct (encodeURIComponent w (query a)) as [q|error]; [|reflexivity].
  rewrite run_bind. unfold run at 1, alloc at 1.
  rewrite run_bind.
  assert (run (match siteFilter a with
               | Some site =>
                   if String.eqb site EmptyString then mret tt
                   else write (length (heap s)) "X-Site" (str ("https://" +:+ site))
               | None => mret tt
               end) (State (heap s ++ [search_headers]) (fetched s))
          = (Ok tt, State (heap s ++ [search_base a]) (fetched s))) as ->.
  { unfold search_base. destruct (siteFilter a) as [site|]; [|reflexivity].
    destruct (String.eqb site EmptyString); [reflexivity|].
    unfold run, write. cbn [heap fetched]. now rewrite alter_last. }
  rewrite run_bind, createHeaders_run. cbn [heap fetched].
  rewrite lookup_last. cbn [default]. unfold id.
  rewrite run_bind. unfold run at 1, read at 1. cbn [heap].
  rewrite lookup_last. cbn [default]. unfold id.
  rewrite run_bind. unfold run at 1, do_fetch at 1. cbn [heap fetched].
  fold (search_request w a q). unfold answer.
  rewrite <- app_assoc. cbn [app].
  destruct (fetch w (search_request w a q)) as [error|res]; [reflexivity|].
  unfold run, lift. destruct (search_reply w a res); reflexivity.
Qed.

(** ** The requests *)

Lemma sends_reader (w : World) (a : reader_args) (s : state) (req : request) :
  sends (jina_reader w a) s req <-> req = reader_request w a.
Proof.
  unfold sends. rewrite jina_reader_run. cbn [snd fetched]. split.
  - intros (reqs & E & I). apply app_inv_head in E. subst reqs.
    now apply list_elem_of_singleton in I.
  - intros ->. exists [reader_request w a]. split; [reflexivity|].
    now apply list_elem_of_singleton.
Qed.

Lemma sends_search (w : World) (a : search_args) (s : state) (req : request) :
  sends (jina_search w a) s req <->
  exists q, encodeURIComponent w (query a) = Ok q /\ req = search_request w a q.
Proof.
  unfold sends. rewrite jina_search_run.
  destruct (encodeURIComponent w (query a)) as [q|error]; cbn [snd fetched]; split.
  - intros (reqs & E & I). apply app_inv_head in E. subst reqs.
    apply list_elem_of_singleton in I. eauto.
  - intros (q' & [= <-] & ->). exists [search_request w a q]. split; [reflexivity|].
    now apply list_elem_of_singleton.
  - intros (reqs & E & I). rewrite <- (app_nil_r (fetched s)) in E at 1.
    apply app_inv_head in E. subst reqs. now apply not_elem_of_nil in I.
  - intros (q & [=] & _).
Qed.

Lemma authorize_Authorization (w : World) (p : gmap string prim) :
  authorize w p !! "Authorization" =
  match getJinaApiKey w with
  | Some key => Some (str ("Bearer " +:+ key))
  | None => p !! "Authorization"
  end.
Proof.
  unfold authorize. destruct (getJinaApiKey w); [apply lookup_insert_eq|reflexivity].
Qed.

Lemma authorize_other (w : World) (p : gmap string prim) (k : string) :
  k <> "Authorization" -> authorize w p !! k = p !! k.
Proof.
  intros N. unfold authorize. destruct (getJinaApiKey w); [|reflexivity].
  now apply lookup_insert_ne.
Qed.

Lemma reader_headers_Authorization (a : reader_args) :
  reader_headers a !! "Authorization" = None.
Proof. reflexivity. Qed.

Lemma search_base_Authorization (a : search_args) :
  search_base a !! "Authorization" = None.
Proof.
  unfold search_base. destruct (siteFilter a) as [site|]; [|reflexivity].
  destruct (String.eqb site EmptyString); [reflexivity|].
  rewrite lookup_insert_ne by discriminate. reflexivity.
Qed.

(** The [Authorization] header of a request of either tool. *)
Lemma request_Authorization (w : World) (s : state) (req : request) :
  (exists a, sends (jina_reader w a) s req) \/ (exists a, sends (jina_search w a) s req) ->
  req_headers req !! "Authorization" =
  (fun key => str ("Bearer " +:+ key)) <$> getJinaApiKey w.
Proof.
  intros [[a S]|[a S]].
  - apply sends_reader in S. subst req. cbn [req_headers reader_request].
    rewrite authorize_Authorization, reader_headers_Authorization.
    now destruct (getJinaApiKey w).
  - apply sends_search in S. destruct S as (q & _ & ->).
    cbn [req_headers search_request].
    rewrite authorize_Authorization, search_base_Authorization.
    now destruct (getJinaApiKey w).
Qed.

(** ** The header builder *)

Lemma createHeaders_default_run (w : World) (s : state) :
  run (createHeaders w None) s =
  (Ok (length (heap s)), State (heap s ++ [authorize w ∅]) (fetched s)).
Proof.
  unfold createHeaders, authorize.
  rewrite run_bind. unfold run at 1. cbn [mret M_ret].
  rewrite run_bind. unfold run at 1, alloc at 1. cbn [heap fetched].
  destruct (getJinaApiKey w) as [key|] eqn:K.
  - rewrite (getJinaApiKey_nonempty w key K).
    unfold run, mbind, M_bind, write, mret, M_ret. cbn [heap fetched].
    now rewrite alter_last.
  - reflexivity.
Qed.

(** C7. For every object of base headers, the header builder returns a new
    object: it holds the properties of the input, with an [Authorization]
    property set to [Bearer <credential>] exactly when the credential
    resolver returns a credential, and the input object (as every object
    that existed before the call) is left as it was. *)
Theorem createHeaders_returns_a_new_object
  (w : World) (s : state) (base : loc) (entries : gmap string prim) :
  heap s !! base = Some entries ->
  exists (headers : loc) (s' : state) (out : gmap string prim),
    run (createHeaders w (Some base)) s = (Ok headers, s')
    /\ heap s !! headers = None
    /\ heap s' !! headers = Some out
    /\ (forall k, k <> "Authorization" -> out !! k = entries !! k)
    /\ out !! "Authorization" =
       match getJinaApiKey w with
       | Some credential => Some (str ("Bearer " +:+ credential))
       | None => entries !! "Authorization"
       end
    /\ heap s' !! base = Some entries
    /\ (forall l o, heap s !! l = Some o -> heap s' !! l = Some o).
Proof.
  intros B.
  exists (length (heap s)), (State (heap s ++ [authorize w entries]) (fetched s)),
    (authorize w entries).
  rewrite createHeaders_run, B. cbn [default from_option heap]. unfold id.
  repeat split.
  - apply lookup_ge_None. lia.
  - apply lookup_last.
  - intros k N. now apply authorize_other.
  - apply authorize_Authorization.
  - now apply lookup_app_l_Some.
  - intros l o L. now apply lookup_app_l_Some.
Qed.

Lemma createHeaders_returns_a_new_object_witness :
  exists (headers : loc) (s' : state) (out : gmap string prim),
    run (createHeaders (stub {[ "JINA_API_KEY" := "secret" ]} (json_response hello))
           (Some 0%nat)) one_object = (Ok headers, s')
    /\ heap one_object !! headers = None
    /\ heap s' !! headers = Some out
    /\ (forall k, k <> "Authorization" ->
          out !! k = ({[ "Accept" := str "text/plain" ]} : gmap string prim) !! k)
    /\ out !! "Authorization" = Some (str "Bearer secret")
    /\ heap s' !! 0%nat = Some {[ "Accept" := str "text/plain" ]}
    /\ (forall l o, heap one_object !! l = Some o -> heap s' !! l = Some o).
Proof.
  exact (createHeaders_returns_a_new_object
           (stub {[ "JINA_API_KEY" := "secret" ]} (json_response hello))
           one_object 0%nat {[ "Accept" := str "text/plain" ]} eq_refl).
Defined.

(** ** The credential *)

(** C6. Every request of either tool carries no [Authorization] header when
    [JINA_API_KEY] is unset, and exactly [Authorization: Bearer v] when it is
    set to a non-empty [v]. *)
Theorem authorization_follows_the_credential (w : World) (s : state) (req : request) :
  (exists a, sends (jina_reader w a) s req) \/ (exists a, sends (jina_search w a) s req) ->
  (env w !! "JINA_API_KEY" = None -> req_headers req !! "Authorization" = None)
  /\ (forall v, env w !! "JINA_API_KEY" = Some v -> v <> EmptyString ->
        req_headers req !! "Authorization" = Some (str ("Bearer " +:+ v))).
Proof.
  intros S. rewrite (request_Authorization w s req S). unfold getJinaApiKey. split.
  - now intros ->.
  - intros v -> N. apply String.eqb_neq in N. now rewrite N.
Qed.

Lemma authorization_follows_the_credential_witness :
  req_headers (reader_request (stub ∅ (json_response hello)) example_reader_args)
    !! "Authorization" = None
  /\ req_headers
       (search_request (stub {[ "JINA_API_KEY" := "secret" ]} (json_response hello))
          (example_search_args 5 RF_markdown) "rust")
       !! "Authorization" = Some (str "Bearer secret").
Proof.
  split.
  - refine (proj1 (authorization_follows_the_credential
                     (stub ∅ (json_response hello)) initial _
                     (or_introl (ex_intro _ example_reader_args _))) _).
    + eexists. split; [vm_compute; reflexivity | apply list_elem_of_here].
    + reflexivity.
  - refine (proj2 (authorization_follows_the_credential
                     (stub {[ "JINA_API_KEY" := "secret" ]} (json_response hello)) initial _
                     (or_intror (ex_intro _ (example_search_args 5 RF_markdown) _)))
                  "secret" _ _).
    + eexists. split; [vm_compute; reflexivity | apply list_elem_of_here].
    + reflexivity.
    + discriminate.
Defined.

Lemma getJinaApiKey_unset (w : World) : getJinaApiKey (unset w) = None.
Proof.
  unfold getJinaApiKey, unset. cbn [env]. now rewrite lookup_delete_eq.
Qed.

(** C9. When [JINA_API_KEY] is set to the empty string, the credential
    resolver returns null, no request of either tool carries an
    [Authorization] header, and both handlers run exactly as they do with
    the entry removed from the environment. *)
Theorem empty_credential_is_no_credential (w : World) :
  env w !! "JINA_API_KEY" = Some EmptyString ->
  getJinaApiKey w = None
  /\ (forall s req,
        (exists a, sends (jina_reader w a) s req) \/ (exists a, sends (jina_search w a) s req) ->
        req_headers req !! "Authorization" = None)
  /\ (forall a s, run (jina_reader w a) s = run (jina_reader (unset w) a) s)
  /\ (forall a s, run (jina_search w a) s = run (jina_search (unset w) a) s).
Proof.
  intros E.
  assert (getJinaApiKey w = None) as K by (unfold getJinaApiKey; now rewrite E).
  assert (forall p, authorize (unset w) p = authorize w p) as A.
  { intros p. unfold authorize. now rewrite K, getJinaApiKey_unset. }
  split; [exact K|]. split; [|split].
  - intros s req S. now rewrite (request_Authorization w s req S), K.
  - intros a s. rewrite !jina_reader_run. unfold reader_request. now rewrite A.
  - intros a s. rewrite !jina_search_run. cbn [encodeURIComponent unset].
    destruct (encodeURIComponent w (query a)); [|reflexivity].
    unfold search_request. now rewrite A.
Qed.

Lemma empty_credential_is_no_credential_witness :
  getJinaApiKey (stub {[ "JINA_API_KEY" := EmptyString ]} (json_response hello)) = None
  /\ req_headers
       (reader_request (stub {[ "JINA_API_KEY" := EmptyString ]} (json_response hello))
          example_reader_args)
       !! "Authorization" = None.
Proof.
  split.
  - exact (proj1 (empty_credential_is_no_credential
                    (stub {[ "JINA_API_KEY" := EmptyString ]} (json_response hello)) eq_refl)).
  - refine (proj1 (proj2 (empty_credential_is_no_credential
                    (stub {[ "JINA_API_KEY" := EmptyString ]} (json_response hello)) eq_refl))
              initial _ (or_introl (ex_intro _ example_reader_args _))).
    eexists. split; [vm_compute; reflexivity | apply list_elem_of_here].
Defined.

(** ** The [X-Respond-With] header of the reader *)

(** The reader's request always has an [X-Respond-With] property: it holds
    [readerlm-v2] when [useReaderLM] is set, and [undefined] otherwise. *)
Lemma reader_request_respond_with (w : World) (a : reader_args) :
  req_headers (reader_request w a) !! "X-Respond-With" =
  Some (if useReaderLM a then str "readerlm-v2" else undefined).
Proof.
  cbn [req_headers reader_request]. rewrite authorize_other by discriminate.
  reflexivity.
Qed.

(** C3, at [useReaderLM = false]: the one request the reader hands to [fetch]
    has an [X-Respond-With] entry, bound to [undefined]; the entry is not
    left out. *)
Lemma reader_without_ReaderLM_keeps_the_header :
  map (fun req => req_headers req !! "X-Respond-With")
      (fetched (run (jina_reader (stub ∅ (json_response hello)) example_reader_args)
                    initial).2)
  = [Some undefined].
Proof. vm_compute. reflexivity. Qed.

(** ** Failures *)

Lemma append_assoc (a b c : string) : (a +:+ b) +:+ c = a +:+ b +:+ c.
Proof. induction a as [|x a IH]; [reflexivity|]. exact (f_equal (String x) IH). Qed.






(** ** Answers *)

Lemma reader_answered (w : World) (a : reader_args) (s : state) (r : response) :
  answered w (jina_reader w a) s r ->
  exists s', run (jina_reader w a) s = (Ok (settle (reader_reply w r)), s').
Proof.
  intros (req & ->%sends_reader & F). rewrite jina_reader_run.
  unfold answer. rewrite F. eauto.
Qed.

Lemma search_answered (w : World) (a : search_args) (s : state) (r : response) :
  answered w (jina_search w a) s r ->
  exists s', run (jina_search w a) s = (Ok (settle (search_reply w a r)), s').
Proof.
  intros (req & (q & Q & ->)%sends_search & F). rewrite jina_search_run, Q.
  unfold answer. rewrite F. eauto.
Qed.

Lemma get_own (w : World) (v : json) (k : string) :
  v <> JNull -> get w v k = Ok (own v k).
Proof. now destruct v. Qed.

(** ** The reader's text *)

Lemma reader_reply_json (w : World) (r : response) (data : json) :
  json_body r data -> data <> JNull ->
  reader_reply w r =
  Ok {| content_text := or_else (nested_content data) (JStr (JSON_stringify data 2));
        isError := false |}.
Proof.
  intros (O & text & B) N. unfold reader_reply, response_json.
  rewrite O, B. cbn [negb mbind outcome_bind mret outcome_ret].
  rewrite (get_own w data "data" N).
  unfold nested_content. cbn [mbind outcome_bind mret outcome_ret].
  destruct (own data "data") as [d|]; [|reflexivity].
  now destruct d.
Qed.

Lemma or_else_truthy (v : value) (d : json) :
  truthy v = true -> Some (or_else v d) = v.
Proof. unfold or_else. destruct v as [x|]; [|discriminate]. now intros ->. Qed.

Lemma or_else_falsy (v : value) (d : json) :
  truthy v = false -> or_else v d = d.
Proof. unfold or_else. destruct v as [x|]; [|reflexivity]. now intros ->. Qed.

(** C4, as amended. When the upstream response is 2xx with a JSON body other
    than [null], the reader returns a non-error envelope whose text is the
    nested [data.content] value when that value is truthy, and otherwise
    (the field absent, or present and falsy, such as the empty string) the
    whole parsed body pretty-printed with an indentation of two spaces. *)
Theorem reader_text_is_content_or_json
  (w : World) (a : reader_args) (s : state) (r : response) (data : json) :
  answered w (jina_reader w a) s r -> json_body r data -> data <> JNull ->
  exists e s',
    run (jina_reader w a) s = (Ok e, s')
    /\ isError e = false
    /\ (truthy (nested_content data) = true -> Some (content_text e) = nested_content data)
    /\ (truthy (nested_content data) = false ->
          content_text e = JStr (JSON_stringify data 2)).
Proof.
  intros A B N. destruct (reader_answered w a s r A) as (s' & R).
  rewrite (reader_reply_json w r data B N) in R. cbn [settle] in R.
  eexists _, s'. split; [exact R|]. cbn [isError content_text].
  split; [reflexivity|]. split.
  - apply or_else_truthy.
  - apply or_else_falsy.
Qed.

Lemma reader_text_is_content_or_json_witness :
  (exists s',
     run (jina_reader (stub ∅ (json_response hello)) example_reader_args) initial
     = (Ok {| content_text := JStr "Hello"; isError := false |}, s'))
  /\ (exists s',
        run (jina_reader (stub ∅ (Fulfilled overflowing_response)) example_reader_args)
            initial
        = (Ok {| content_text :=
                   JStr (join LF ["{";
                                  "  " +:+ DQ +:+ "data" +:+ DQ +:+ ": {";
                                  "    " +:+ DQ +:+ "content" +:+ DQ +:+ ": " +:+ DQ +:+ DQ;
                                  "  },";
                                  "  " +:+ DQ +:+ "n" +:+ DQ +:+ ": null";
                                  "}"]);
                 isError := false |}, s')).
Proof.
  split.
  - destruct (reader_text_is_content_or_json
                (stub ∅ (json_response hello)) example_reader_args initial
                (ok_response hello) hello) as (e & s' & R & E & T & _).
    + eexists. split; [|reflexivity].
      eexists. split; [vm_compute; reflexivity | apply list_elem_of_here].
    + split; [reflexivity|]. eexists. reflexivity.
    + discriminate.
    + exists s'. rewrite R. destruct e as [t f]. cbn in E, T.
      specialize (T eq_refl). injection T as ->. now rewrite E.
  - destruct (reader_text_is_content_or_json
                (stub ∅ (Fulfilled overflowing_response)) example_reader_args initial
                overflowing_response overflowing_page) as (e & s' & R & E & _ & T).
    + eexists. split; [|reflexivity].
      eexists. split; [vm_compute; reflexivity | apply list_elem_of_here].
    + split; [reflexivity|]. eexists. reflexivity.
    + discriminate.
    + exists s'. rewrite R. destruct e as [t f]. cbn [isError content_text] in E, T.
      specialize (T eq_refl). rewrite E, T. reflexivity.
Defined.

(** C4, as stated, fails: an upstream body whose [data.content] is present
    but empty does not give the empty text; the reader answers with the
    pretty-printed body. *)
Lemma empty_content_falls_back_to_json :
  nested_content empty_page = Some (JStr EmptyString)
  /\ (run (jina_reader (stub ∅ (json_response empty_page)) example_reader_args) initial).1
     = Ok {| content_text :=
               JStr (join LF ["{";
                              "  " +:+ DQ +:+ "data" +:+ DQ +:+ ": {";
                              "    " +:+ DQ +:+ "content" +:+ DQ +:+ ": " +:+ DQ +:+ DQ;
                              "  }";
                              "}"]);
             isError := false |}.
Proof. split; vm_compute; reflexivity. Qed.

(** ** The search results *)

Lemma member_remove_ne (k k' : string) (ms : list (string * json)) :
  k <> k' -> member k (remove_member k' ms) = member k ms.
Proof.
  intros N. unfold remove_member.
  induction ms as [|[k0 v] ms IH]; [reflexivity|].
  rewrite filter_cons. cbn [fst member].
  destruct (decide (k0 <> k')) as [D|D]; cbn [member].
  - now rewrite IH.
  - destruct (decide (k0 = k)) as [->|_]; [|exact IH].
    exfalso. apply D. exact N.
Qed.

(** Stripping [usage] changes no other property. *)
Lemma strip_usage_get (w : World) (r r' : json) (k : string) :
  strip_usage w r = Ok r' -> k <> "usage" -> get w r' k = get w r k.
Proof.
  unfold strip_usage. destruct r; cbn; try (now intros [= <-]).
  destruct (truthy (member "usage" members)); intros [= <-] N; [|reflexivity].
  cbn. now rewrite member_remove_ne.
Qed.

Lemma strip_usage_total (w : World) (r : json) :
  r <> JNull -> exists r', strip_usage w r = Ok r'.
Proof.
  intros N. unfold strip_usage. rewrite (get_own w r "usage" N).
  cbn [mbind outcome_bind]. destruct (truthy (own r "usage")); [|eauto].
  destruct r; eauto.
Qed.

Lemma field_text_strip (w : World) (r r' : json) (k fallback : string) :
  strip_usage w r = Ok r' -> k <> "usage" ->
  field_text w r' k fallback = field_text w r k fallback.
Proof. intros S N. unfold field_text. now rewrite (strip_usage_get w r r' k S N). Qed.

Lemma date_text_strip (w : World) (r r' : json) :
  strip_usage w r = Ok r' -> date_text w r' = date_text w r.
Proof.
  intros S. unfold date_text. now rewrite (strip_usage_get w r r' "date" S).
Qed.

Lemma markdown_entry_strip (w : World) (i : nat) (r r' : json) :
  strip_usage w r = Ok r' -> markdown_entry w i r' = markdown_entry w i r.
Proof.
  intros S. unfold markdown_entry.
  now rewrite !(field_text_strip w r r' _ _ S), (date_text_strip w r r' S).
Qed.

Lemma html_entry_strip (w : World) (i : nat) (r r' : json) :
  strip_usage w r = Ok r' -> html_entry w i r' = html_entry w i r.
Proof.
  intros S. unfold html_entry.
  now rewrite !(field_text_strip w r r' _ _ S), (date_text_strip w r r' S).
Qed.

Lemma text_entry_strip (w : World) (i : nat) (r r' : json) :
  strip_usage w r = Ok r' -> text_entry w i r' = text_entry w i r.
Proof.
  intros S. unfold text_entry.
  now rewrite !(field_text_strip w r r' _ _ S), (date_text_strip w r r' S).
Qed.

Lemma map_indexed_strip {B : Type} (w : World) (f : nat -> json -> outcome B) :
  (forall j r r', strip_usage w r = Ok r' -> f j r' = f j r) ->
  forall l l' i j,
    map_indexed (fun _ => strip_usage w) i l = Ok l' ->
    map_indexed f j l' = map_indexed f j l.
Proof.
  intros F. induction l as [|x l IH]; intros l' i j.
  - now intros [= <-].
  - cbn [map_indexed]. destruct (strip_usage w x) as [x'|] eqn:X; [|discriminate].
    cbn [mbind outcome_bind].
    destruct (map_indexed (fun _ => strip_usage w) (S i) l) as [l0|] eqn:L; [|discriminate].
    cbn [mbind outcome_bind mret outcome_ret]. intros [= <-].
    cbn [map_indexed]. now rewrite (F j x x' X), (IH l0 (S i) (S j) L).
Qed.

(** Rendering the stripped results is rendering the results. *)
Lemma format_results_strip (w : World) (f : ReturnFormat) (l l' : list json) (i : nat) :
  map_indexed (fun _ => strip_usage w) i l = Ok l' ->
  format_results w f l' = format_results w f l.
Proof.
  intros S. unfold format_results. destruct f.
  - now rewrite (map_indexed_strip w _ (markdown_entry_strip w) l l' i 0%nat S).
  - now rewrite (map_indexed_strip w _ (text_entry_strip w) l l' i 0%nat S).
  - now rewrite (map_indexed_strip w _ (html_entry_strip w) l l' i 0%nat S).
Qed.

Lemma map_indexed_total {A B : Type} (f : nat -> A -> outcome B) (l : list A) :
  (forall j x, x ∈ l -> exists y, f j x = Ok y) ->
  forall i, exists ys, map_indexed f i l = Ok ys.
Proof.
  induction l as [|x l IH]; intros F i; [now exists []|].
  destruct (F i x) as (y & Y); [apply list_elem_of_here|].
  destruct (IH (fun j z I => F j z (list_elem_of_further _ _ _ I)) (S i)) as (ys & YS).
  exists (y :: ys). cbn [map_indexed]. now rewrite Y, YS.
Qed.

Lemma is_item_not_null (r : json) : is_item r = true -> r <> JNull.
Proof. now destruct r. Qed.

Lemma is_item_textual (r : json) (k : string) :
  is_item r = true -> k ∈ ["title"; "url"; "description"; "date"] ->
  textual (own r k) = true.
Proof.
  destruct r; try discriminate. unfold is_item.
  rewrite !andb_true_iff. intros [[[T U] D] E] I.
  repeat (apply elem_of_cons in I as [->|I]; [assumption|]).
  now apply not_elem_of_nil in I.
Qed.

Lemma field_text_item (w : World) (r : json) (k fallback : string) :
  is_item r = true -> k ∈ ["title"; "url"; "description"; "date"] ->
  exists t, field_text w r k fallback = Ok t.
Proof.
  intros I K. unfold field_text.
  rewrite (get_own w r k (is_item_not_null r I)). cbn [mbind outcome_bind].
  pose proof (is_item_textual r k I K) as T.
  destruct (own r k) as [[]|]; try discriminate; cbn.
  - destruct (negb (String.eqb s EmptyString)); eauto.
  - eauto.
Qed.

(** The date of an item: nothing when the field is absent or empty. *)
Lemma date_text_item (w : World) (r : json) :
  is_item r = true ->
  date_text w r =
  Ok match own r "date" with
     | Some (JStr d) => if String.eqb d EmptyString then EmptyString else "Date: " +:+ d
     | _ => EmptyString
     end.
Proof.
  intros I. unfold date_text.
  rewrite (get_own w r "date" (is_item_not_null r I)). cbn [mbind outcome_bind].
  assert (textual (own r "date") = true) as T.
  { apply is_item_textual; [exact I|]. repeat constructor. }
  destruct (own r "date") as [[]|]; try discriminate; cbn; [|reflexivity].
  now destruct (String.eqb s EmptyString).
Qed.

Lemma format_results_total (w : World) (f : ReturnFormat) (l : list json) :
  Forall (fun r => is_item r = true) l -> exists out, format_results w f l = Ok out.
Proof.
  intros F. rewrite Forall_forall in F.
  assert (forall entry : nat -> json -> outcome string,
            (forall j r, is_item r = true -> exists y, entry j r = Ok y) ->
            exists ys, map_indexed entry 0 l = Ok ys) as E.
  { intros entry T. apply map_indexed_total. intros j x I. apply T, F, I. }
  assert (forall r, is_item r = true ->
            exists t u d dt,
              field_text w r "title" "Untitled" = Ok t
              /\ field_text w r "url" EmptyString = Ok u
              /\ field_text w r "description" EmptyString = Ok d
              /\ date_text w r = Ok dt) as P.
  { intros r I.
    destruct (field_text_item w r "title" "Untitled" I) as (t & T); [repeat constructor|].
    destruct (field_text_item w r "url" EmptyString I) as (u & U); [repeat constructor|].
    destruct (field_text_item w r "description" EmptyString I) as (d & D);
      [repeat constructor|].
    exists t, u, d. eexists. repeat split; try eassumption. now apply date_text_item. }
  unfold format_results. destruct f.
  - destruct (E (markdown_entry w)) as (ys & ->); [|eauto].
    intros j r I. destruct (P r I) as (t & u & d & dt & T & U & D & DT).
    unfold markdown_entry. rewrite T, U, D, DT. eauto.
  - destruct (E (text_entry w)) as (ys & ->); [|eauto].
    intros j r I. destruct (P r I) as (t & u & d & dt & T & U & D & DT).
    unfold text_entry. rewrite T, U, D, DT. eauto.
  - destruct (E (html_entry w)) as (ys & ->); [|eauto].
    intros j r I. destruct (P r I) as (t & u & d & dt & T & U & D & DT).
    unfold html_entry. rewrite T, U, D, DT. eauto.
Qed.

(** The results the search keeps, from the upstream list. *)
Lemma select_results_list (w : World) (c : number) (data : json) (results : list json) :
  result_list data = Some results ->
  select_results w c data =
  Ok (if exceeds (length results) c then slice_to results c else results).
Proof.
  unfold result_list, select_results. intros R.
  assert (data <> JNull) as N by (intros ->; discriminate).
  rewrite (get_own w data "data" N). cbn [mbind outcome_bind].
  destruct (own data "data") as [[]|]; try discriminate.
  injection R as ->. cbn [or_else truthy].
  now destruct (exceeds (length results) c).
Qed.

(** A 2xx answer with a result list: the envelope holds the rendering of the
    kept results. *)
Lemma search_reply_list
  (w : World) (a : search_args) (r : response) (data : json) (results kept : list json) :
  json_body r data -> result_list data = Some results ->
  kept = (if exceeds (length results) (count a) then slice_to results (count a) else results) ->
  Forall (fun x => is_item x = true) kept ->
  exists out,
    format_results w (returnFormat a) kept = Ok out
    /\ search_reply w a r = Ok {| content_text := JStr out; isError := false |}.
Proof.
  intros (O & text & B) R K F.
  destruct (format_results_total w (returnFormat a) kept F) as (out & FO).
  exists out. split; [exact FO|].
  unfold search_reply, response_text, response_json. rewrite O, B.
  cbn [negb mbind outcome_bind mret outcome_ret].
  rewrite (select_results_list w (count a) data results R), <- K.
  cbn [mbind outcome_bind].
  destruct (map_indexed_total (fun _ => strip_usage w) kept) with (i := 0%nat) as (kept' & S).
  { intros _ x I. apply strip_usage_total, is_item_not_null.
    rewrite Forall_forall in F. now apply F. }
  rewrite S. cbn [mbind outcome_bind].
  now rewrite (format_results_strip w _ kept kept' 0%nat S), FO.
Qed.

(** ** Truncation *)




(** A positive count that is not an integer keeps its integer part. *)
Lemma slice_to_positive {A : Type} (l : list A) (c : Q) :
  (0 < c)%Q -> slice_to l (Finite c) = take (Z.to_nat (truncate c)) l.
Proof.
  intros P. unfold slice_to, truncate.
  assert (0 <= Z.quot (Qnum c) (Z.pos (Qden c)))%Z as N.
  { apply Z.quot_pos; [|lia]. unfold Qlt in P. cbn in P. lia. }
  now destruct (Z.ltb_spec (Z.quot (Qnum c) (Z.pos (Qden c))) 0); [lia|].
Qed.






(** ** No results *)

Lemma search_reply_empty (w : World) (a : search_args) (r : response) (data : json) :
  json_body r data -> data <> JNull ->
  truthy (own data "data") = false \/ own data "data" = Some (JArr []) ->
  search_reply w a r =
  Ok {| content_text := JStr match returnFormat a with
                             | RF_html => "<ol></ol>"
                             | _ => EmptyString
                             end;
        isError := false |}.
Proof.
  intros (O & text & B) N D.
  assert (select_results w (count a) data = Ok []) as S.
  { unfold select_results. rewrite (get_own w data "data" N). cbn [mbind outcome_bind].
    assert (or_else (own data "data") (JArr []) = JArr []) as ->.
    { destruct D as [D| ->]; [now apply or_else_falsy|reflexivity]. }
    cbn [length]. unfold slice_to.
    destruct (exceeds 0 (count a)); [|reflexivity].
    destruct (count a) as [c| |]; [|reflexivity..].
    destruct (truncate c <? 0)%Z; now rewrite take_nil. }
  unfold search_reply, response_text, response_json. rewrite O, B.
  cbn [negb mbind outcome_bind mret outcome_ret]. rewrite S.
  now destruct (returnFormat a).
Qed.

(** C10, as amended. When the upstream 2xx JSON body is not [null] and its
    [data] member is absent, falsy or an empty array, the search returns a
    non-error envelope whose text is empty under the markdown and text
    renderers and [<ol></ol>] under the html renderer. *)
Theorem search_without_results_is_empty
  (w : World) (a : search_args) (s : state) (r : response) (data : json) :
  answered w (jina_search w a) s r -> json_body r data -> data <> JNull ->
  truthy (own data "data") = false \/ own data "data" = Some (JArr []) ->
  exists s',
    run (jina_search w a) s
    = (Ok {| content_text := JStr match returnFormat a with
                                  | RF_html => "<ol></ol>"
                                  | _ => EmptyString
                                  end;
             isError := false |}, s').
Proof.
  intros A B N D. destruct (search_answered w a s r A) as (s' & S).
  exists s'. now rewrite S, (search_reply_empty w a r data B N D).
Qed.

Lemma search_without_results_is_empty_witness :
  exists s',
    run (jina_search (stub ∅ (json_response (JObj []))) (example_search_args 5 RF_html))
        initial
    = (Ok {| content_text := JStr "<ol></ol>"; isError := false |}, s').
Proof.
  refine (search_without_results_is_empty
            (stub ∅ (json_response (JObj []))) (example_search_args 5 RF_html)
            initial (ok_response (JObj [])) (JObj []) _ _ _ _).
  - eexists. split; [|reflexivity].
    eexists. split; [vm_compute; reflexivity | apply list_elem_of_here].
  - split; [reflexivity|]. eexists. reflexivity.
  - discriminate.
  - left. reflexivity.
Defined.

(** C10, as stated, fails: a body whose [data] is an object has no [data]
    array, and the search answers it with an error envelope. *)
Lemma search_data_object_is_an_error :
  result_list data_object = None
  /\ (run (jina_search (stub ∅ (json_response data_object))
              (example_search_args 5 RF_markdown)) initial).1
     = Ok {| content_text := JStr "Error: results.map is not a function";
             isError := true |}.
Proof. split; vm_compute; reflexivity. Qed.

(** ** The date line *)

Lemma field_text_textual (w : World) (r : json) (k fallback : string) :
  r <> JNull -> textual (own r k) = true ->
  exists t, field_text w r k fallback = Ok t.
Proof.
  intros N T. unfold field_text.
  rewrite (get_own w r k N). cbn [mbind outcome_bind].
  destruct (own r k) as [[]|]; try discriminate; cbn.
  - destruct (negb (String.eqb s EmptyString)); eauto.
  - eauto.
Qed.

(** A date that is absent or falsy prints as nothing. *)
Lemma date_text_falsy (w : World) (r : json) :
  r <> JNull -> truthy (own r "date") = false -> date_text w r = Ok EmptyString.
Proof.
  intros N F. unfold date_text.
  rewrite (get_own w r "date" N). cbn [mbind outcome_bind].
  destruct (own r "date") as [d|]; [|reflexivity]. now rewrite F.
Qed.

Lemma date_text_string (w : World) (r : json) (d : string) :
  r <> JNull -> d <> EmptyString -> own r "date" = Some (JStr d) ->
  date_text w r = Ok ("Date: " +:+ d).
Proof.
  intros N E D. unfold date_text.
  rewrite (get_own w r "date" N), D. cbn [mbind outcome_bind truthy].
  apply String.eqb_neq in E. now rewrite E.
Qed.

(** Each renderer ends an entry with the line of the date, whatever the date
    text is. *)
Lemma entries_end_with_the_date (w : World) (i : nat) (r : json) (date : string) :
  r <> JNull ->
  textual (own r "title") = true ->
  textual (own r "url") = true ->
  textual (own r "description") = true ->
  date_text w r = Ok date ->
  exists md tx ht,
    markdown_entry w i r = Ok md /\ ends_with md (LF +:+ "   " +:+ date +:+ LF)
    /\ text_entry w i r = Ok tx /\ ends_with tx (LF +:+ "   " +:+ date)
    /\ html_entry w i r = Ok ht
    /\ ends_with ht ("<br>" +:+ LF +:+ "           " +:+ date +:+ "</li>").
Proof.
  intros N Tt Tu Td DT.
  destruct (field_text_textual w r "title" "Untitled" N Tt) as (t & T).
  destruct (field_text_textual w r "url" EmptyString N Tu) as (u & U).
  destruct (field_text_textual w r "description" EmptyString N Td) as (d & D).
  unfold markdown_entry, text_entry, html_entry. rewrite T, U, D, DT.
  cbn [mbind outcome_bind mret outcome_ret].
  eexists _, _, _. repeat split.
  - exists (pretty (i + 1)%nat +:+ ". **" +:+ t +:+ "**" +:+ LF
              +:+ "   " +:+ u +:+ LF +:+ "   " +:+ d).
    now rewrite !append_assoc.
  - exists (pretty (i + 1)%nat +:+ ". " +:+ t +:+ LF
              +:+ "   " +:+ u +:+ LF +:+ "   " +:+ d).
    now rewrite !append_assoc.
  - exists ("<li><strong>" +:+ t +:+ "</strong><br>" +:+ LF
              +:+ "           <a href=" +:+ DQ +:+ u +:+ DQ +:+ ">" +:+ u +:+ "</a><br>" +:+ LF
              +:+ "           " +:+ d).
    now rewrite !append_assoc.
Qed.

(** C2, as amended. For a result whose date is absent or falsy (the empty
    string, [null], [false], zero), every renderer still emits the line
    where the date would stand, holding only its indentation (three spaces
    in markdown and text; after a line break and before [</li>] in html) and
    no [Date:] text; for a result dated [2024-01-01] that line holds
    [Date: 2024-01-01].  The result is any value but [null] whose title, URL
    and description are strings or absent. *)
Theorem date_line_is_blank_without_a_date (w : World) (i : nat) (r : json) :
  r <> JNull ->
  textual (own r "title") = true ->
  textual (own r "url") = true ->
  textual (own r "description") = true ->
  (truthy (own r "date") = false ->
   exists md tx ht,
     markdown_entry w i r = Ok md /\ ends_with md (LF +:+ "   " +:+ LF)
     /\ text_entry w i r = Ok tx /\ ends_with tx (LF +:+ "   ")
     /\ html_entry w i r = Ok ht /\ ends_with ht ("<br>" +:+ LF +:+ "           </li>"))
  /\ (own r "date" = Some (JStr "2024-01-01") ->
      exists md tx ht,
        markdown_entry w i r = Ok md
        /\ ends_with md (LF +:+ "   Date: 2024-01-01" +:+ LF)
        /\ text_entry w i r = Ok tx
        /\ ends_with tx (LF +:+ "   Date: 2024-01-01")
        /\ html_entry w i r = Ok ht
        /\ ends_with ht ("<br>" +:+ LF +:+ "           Date: 2024-01-01</li>")).
Proof.
  intros N Tt Tu Td. split; intros D.
  - exact (entries_end_with_the_date w i r EmptyString N Tt Tu Td
             (date_text_falsy w r N D)).
  - refine (entries_end_with_the_date w i r "Date: 2024-01-01" N Tt Tu Td
              (date_text_string w r "2024-01-01" N _ D)).
    discriminate.
Qed.

Lemma date_line_is_blank_without_a_date_witness :
  (exists md tx ht,
     markdown_entry (stub ∅ (json_response one_dateless)) 0 (example_item "a" None) = Ok md
     /\ ends_with md (LF +:+ "   " +:+ LF)
     /\ text_entry (stub ∅ (json_response one_dateless)) 0 (example_item "a" None) = Ok tx
     /\ ends_with tx (LF +:+ "   ")
     /\ html_entry (stub ∅ (json_response one_dateless)) 0 (example_item "a" None) = Ok ht
     /\ ends_with ht ("<br>" +:+ LF +:+ "           </li>"))
  /\ (exists md tx ht,
        markdown_entry (stub ∅ (json_response one_dateless)) 2
          (example_item "c" (Some EmptyString)) = Ok md
        /\ ends_with md (LF +:+ "   " +:+ LF)
        /\ text_entry (stub ∅ (json_response one_dateless)) 2
             (example_item "c" (Some EmptyString)) = Ok tx
        /\ ends_with tx (LF +:+ "   ")
        /\ html_entry (stub ∅ (json_response one_dateless)) 2
             (example_item "c" (Some EmptyString)) = Ok ht
        /\ ends_with ht ("<br>" +:+ LF +:+ "           </li>"))
  /\ (exists md tx ht,
        markdown_entry (stub ∅ (json_response one_dateless)) 1
          (example_item "b" (Some "2024-01-01")) = Ok md
        /\ ends_with md (LF +:+ "   Date: 2024-01-01" +:+ LF)
        /\ text_entry (stub ∅ (json_response one_dateless)) 1
             (example_item "b" (Some "2024-01-01")) = Ok tx
        /\ ends_with tx (LF +:+ "   Date: 2024-01-01")
        /\ html_entry (stub ∅ (json_response one_dateless)) 1
             (example_item "b" (Some "2024-01-01")) = Ok ht
        /\ ends_with ht ("<br>" +:+ LF +:+ "           Date: 2024-01-01</li>")).
Proof.
  assert (forall name date, example_item name date <> JNull) as N by discriminate.
  split; [|split].
  - exact (proj1 (date_line_is_blank_without_a_date
                    (stub ∅ (json_response one_dateless)) 0 (example_item "a" None)
                    (N _ _) eq_refl eq_refl eq_refl)
                 eq_refl).
  - exact (proj1 (date_line_is_blank_without_a_date
                    (stub ∅ (json_response one_dateless)) 2
                    (example_item "c" (Some EmptyString))
                    (N _ _) eq_refl eq_refl eq_refl)
                 eq_refl).
  - exact (proj2 (date_line_is_blank_without_a_date
                    (stub ∅ (json_response one_dateless)) 1
                    (example_item "b" (Some "2024-01-01"))
                    (N _ _) eq_refl eq_refl eq_refl)
                 eq_refl).
Defined.

(** C2, as stated, fails: the one result has no date, and each renderer
    still emits a fourth line for it, blank but for its indentation. *)
Lemma dateless_item_renders_a_blank_line :
  map (fun f =>
         (run (jina_search (stub ∅ (json_response one_dateless)) (example_search_args 5 f))
              initial).1)
      [RF_markdown; RF_text; RF_html]
  = [Ok {| content_text :=
             JStr (join LF ["1. **a**"; "   https://example.com/a"; "   About a"; "   "; ""]);
           isError := false |};
     Ok {| content_text :=
             JStr (join LF ["1. a"; "   https://example.com/a"; "   About a"; "   "]);
           isError := false |};
     Ok {| content_text :=
             JStr (join LF ["<ol><li><strong>a</strong><br>";
                            "           <a href=" +:+ DQ +:+ "https://example.com/a" +:+ DQ
                              +:+ ">https://example.com/a</a><br>";
                            "           About a<br>";
                            "           </li></ol>"]);
           isError := false |}].
Proof. vm_compute. reflexivity. Qed.

(** ** The shape of the requests *)

(** X1. The reader hands exactly one request to [fetch]: a POST to the
    reader endpoint whose body is the JSON text of [{url}], with the fixed
    headers, the two summary flags as the strings [true] or [false] and
    [X-Return-Format] as the lower-cased format name. *)
Theorem reader_request_is_as_documented (w : World) (a : reader_args) (s : state) :
  exists req,
    fetched (run (jina_reader w a) s).2 = fetched s ++ [req]
    /\ req_method req = "POST"
    /\ req_url req = "https://r.jina.ai/"
    /\ req_body req = Some ("{" +:+ quote "url" +:+ ":" +:+ quote (url a) +:+ "}")
    /\ req_headers req !! "Content-Type" = Some (str "application/json")
    /\ req_headers req !! "Accept" = Some (str "application/json")
    /\ req_headers req !! "X-With-Links-Summary"
       = Some (str (if withLinks a then "true" else "false"))
    /\ req_headers req !! "X-With-Images-Summary"
       = Some (str (if withImages a then "true" else "false"))
    /\ req_headers req !! "X-Return-Format"
       = Some (str match format a with
                   | Default => "default"
                   | Markdown => "markdown"
                   | HTML => "html"
                   | Text => "text"
                   | Screenshot => "screenshot"
                   | Pageshot => "pageshot"
                   end)
    /\ req_headers req !! "X-With-Generated-Alt" = Some (str "true")
    /\ req_headers req !! "X-With-Iframe" = Some (str "true")
    /\ req_headers req !! "X-With-Shadow-Dom" = Some (str "true").
Proof.
  exists (reader_request w a). rewrite jina_reader_run.
  cbn [snd fetched req_method req_url req_body req_headers reader_request].
  rewrite !authorize_other by discriminate.
  repeat split; try reflexivity.
  destruct a as [u f links images lm]. now destruct f.
Qed.

(** X2. The search hands one request to [fetch] when the query can be
    encoded, and none otherwise: a GET to the search endpoint with the
    encoded query, the three fixed headers, and [X-Site: https://<site>]
    exactly when a non-empty [siteFilter] is given. *)
Theorem search_request_is_as_documented (w : World) (a : search_args) (s : state) :
  match encodeURIComponent w (query a) with
  | Ok q =>
      exists req,
        fetched (run (jina_search w a) s).2 = fetched s ++ [req]
        /\ req_method req = "GET"
        /\ req_url req = "https://s.jina.ai/?q=" +:+ q
        /\ req_body req = None
        /\ req_headers req !! "Accept" = Some (str "application/json")
        /\ req_headers req !! "X-Respond-With" = Some (str "no-content")
        /\ req_headers req !! "X-With-Favicons" = Some (str "true")
        /\ req_headers req !! "X-Site"
           = match siteFilter a with
             | Some site =>
                 if String.eqb site EmptyString then None
                 else Some (str ("https://" +:+ site))
             | None => None
             end
  | Throw _ => fetched (run (jina_search w a) s).2 = fetched s
  end.
Proof.
  rewrite jina_search_run.
  destruct (encodeURIComponent w (query a)) as [q|error]; [|reflexivity].
  exists (search_request w a q).
  cbn [snd fetched req_method req_url req_body req_headers search_request].
  rewrite !authorize_other by discriminate.
  unfold search_base. destruct (siteFilter a) as [site|]; [|now repeat split].
  destruct (String.eqb site EmptyString); [now repeat split|].
  rewrite lookup_insert_eq, !lookup_insert_ne by discriminate.
  now repeat split.
Qed.

(** End to end: a search for [rust] with [count = 1], answered with two
    results, gives markdown holding the first result only, numbered
    [1.] and with its title in bold. *)
Lemma search_for_one_of_two_results :
  (run (jina_search
          (stub ∅ (json_response (JObj [("data", JArr [example_item "a" None;
                                                       example_item "b" None])])))
          (example_search_args 1 RF_markdown)) initial).1
  = Ok {| content_text :=
            JStr (join LF ["1. **a**"; "   https://example.com/a"; "   About a"; "   "; ""]);
          isError := false |}.
Proof. vm_compute. reflexivity. Qed.

(** ** Counts that are not integers *)

Lemma exceeds_positive (len : nat) (q : Q) :
  (0 < q)%Q -> (q < inject_Z (Z.of_nat len))%Q -> exceeds len (Finite q) = true.
Proof.
  intros P L. unfold exceeds.
  assert (Qeq_bool q 0 = false) as ->.
  { destruct (Qeq_bool q 0) eqn:B; [|reflexivity].
    apply Qeq_bool_iff in B. rewrite B in P. now apply Qlt_irrefl in P. }
  assert (Qle_bool q 0 = false) as ->.
  { destruct (Qle_bool q 0) eqn:B; [|reflexivity].
    apply Qle_bool_iff in B. now apply Qle_not_lt in B. }
  assert (Qle_bool (inject_Z (Z.of_nat len)) q = false) as ->.
  { destruct (Qle_bool (inject_Z (Z.of_nat len)) q) eqn:B; [|reflexivity].
    apply Qle_bool_iff in B. now apply Qle_not_lt in B. }
  reflexivity.
Qed.

(** X3. A positive finite [count], integer or not, below the length of the
    upstream list keeps the first [trunc(count)] results: a count between 0
    and 1 keeps none. *)
Theorem search_keeps_the_integer_part_of_count
  (w : World) (a : search_args) (s : state) (r : response) (data : json)
  (results : list json) (q : Q) :
  answered w (jina_search w a) s r -> json_body r data ->
  result_list data = Some results ->
  Forall (fun x => is_item x = true) results ->
  count a = Finite q -> (0 < q)%Q -> (q < inject_Z (Z.of_nat (length results)))%Q ->
  exists out s',
    format_results w (returnFormat a) (take (Z.to_nat (truncate q)) results) = Ok out
    /\ run (jina_search w a) s = (Ok {| content_text := JStr out; isError := false |}, s').
Proof.
  intros A B R F C P L. destruct (search_answered w a s r A) as (s' & S).
  destruct (search_reply_list w a r data results (take (Z.to_nat (truncate q)) results) B R)
    as (out & FO & SR).
  - now rewrite C, (exceeds_positive _ q P L), (slice_to_positive results q P).
  - now apply Forall_take.
  - exists out, s'. split; [exact FO|]. now rewrite S, SR.
Qed.

Lemma search_keeps_the_integer_part_of_count_witness :
  exists s',
    run (jina_search (stub ∅ (json_response five_results))
           (example_search_args (1 # 2) RF_html)) initial
    = (Ok {| content_text := JStr "<ol></ol>"; isError := false |}, s').
Proof.
  destruct (search_keeps_the_integer_part_of_count
              (stub ∅ (json_response five_results)) (example_search_args (1 # 2) RF_html)
              initial (ok_response five_results) five_results five_items (1 # 2))
    as (out & s' & FO & R).
  - eexists. split; [|reflexivity].
    eexists. split; [vm_compute; reflexivity | apply list_elem_of_here].
  - split; [reflexivity|]. eexists. reflexivity.
  - reflexivity.
  - repeat constructor.
  - reflexivity.
  - reflexivity.
  - reflexivity.
  - exists s'. rewrite R. vm_compute in FO. injection FO as <-. reflexivity.
Defined.

(** ** The text of the error envelopes *)

Lemma ok_false (r : response) :
  (status r < 200 \/ 299 < status r)%nat -> ok r = false.
Proof.
  intros H. unfold ok. apply andb_false_iff.
  destruct H; [left; apply Nat.leb_gt|right; apply Nat.leb_gt]; lia.
Qed.

(** X4. A response whose status is below 200 or above 299, with a readable
    body, gives exactly the envelope [Error: Jina Reader API error
    (<status>): <body>] (for the search, [Jina Search API error]) with
    [isError: true], whatever the body holds. *)
Theorem api_error_text_is_exact
  (w : World) (s : state) (r : response) (text : string) (parsed : string + json) :
  (status r < 200 \/ 299 < status r)%nat -> res_body r = Readable text parsed ->
  (forall a, answered w (jina_reader w a) s r ->
     exists s',
       run (jina_reader w a) s
       = (Ok {| content_text :=
                  JStr ("Error: Jina Reader API error (" +:+ pretty (status r) +:+ "): "
                          +:+ text);
                isError := true |}, s'))
  /\ (forall a, answered w (jina_search w a) s r ->
       exists s',
         run (jina_search w a) s
         = (Ok {| content_text :=
                    JStr ("Error: Jina Search API error (" +:+ pretty (status r) +:+ "): "
                            +:+ text);
                  isError := true |}, s')).
Proof.
  intros S%ok_false B. split; intros a A.
  - destruct (reader_answered w a s r A) as (s' & ->). exists s'.
    unfold reader_reply, response_text. now rewrite S, B.
  - destruct (search_answered w a s r A) as (s' & ->). exists s'.
    unfold search_reply, response_text. now rewrite S, B.
Qed.

Lemma api_error_text_is_exact_witness :
  exists s',
    run (jina_search (stub ∅ not_found) (example_search_args 5 RF_markdown)) initial
    = (Ok {| content_text := JStr "Error: Jina Search API error (404): no such page";
             isError := true |}, s').
Proof.
  refine (proj2 (api_error_text_is_exact (stub ∅ not_found) initial
                   {| status := 404; res_body := Readable "no such page" (inl "Unexpected token") |}
                   "no such page" (inl "Unexpected token") _ eq_refl)
                (example_search_args 5 RF_markdown) _).
  - right. cbn. lia.
  - eexists. split; [|reflexivity].
    eexists. split; [vm_compute; reflexivity | apply list_elem_of_here].
Defined.

(** X5. A 2xx response whose JSON body is the value [null] makes both
    handlers read a property of [null]: the envelope is the error envelope
    carrying the engine's message for reading [data] of [null]. *)
Theorem null_body_is_an_error (w : World) (s : state) (r : response) :
  json_body r JNull ->
  (forall a, answered w (jina_reader w a) s r ->
     exists s',
       run (jina_reader w a) s
       = (Ok (error_envelope (Error (type_error_text w (ReadOfNull "data")))), s'))
  /\ (forall a, answered w (jina_search w a) s r ->
       exists s',
         run (jina_search w a) s
         = (Ok (error_envelope (Error (type_error_text w (ReadOfNull "data")))), s')).
Proof.
  intros (O & text & B). split; intros a A.
  - destruct (reader_answered w a s r A) as (s' & ->). exists s'.
    unfold reader_reply, response_json. now rewrite O, B.
  - destruct (search_answered w a s r A) as (s' & ->). exists s'.
    unfold search_reply, response_text, response_json. now rewrite O, B.
Qed.

Lemma null_body_is_an_error_witness :
  exists s',
    run (jina_reader (stub ∅ (json_response JNull)) example_reader_args) initial
    = (Ok {| content_text :=
               JStr "Error: Cannot read properties of null (reading 'data')";
             isError := true |}, s').
Proof.
  refine (proj1 (null_body_is_an_error (stub ∅ (json_response JNull)) initial
                   (ok_response JNull) _) example_reader_args _).
  - split; [reflexivity|]. eexists. reflexivity.
  - eexists. split; [|reflexivity].
    eexists. split; [vm_compute; reflexivity | apply list_elem_of_here].
Defined.

(** ** The usage pass and null results *)

Lemma strip_usage_all (w : World) (l : list json) (i : nat) :
  Forall (fun x => x <> JNull) l ->
  exists l', map_indexed (fun _ => strip_usage w) i l = Ok l'.
Proof.
  intros F. apply map_indexed_total. intros _ x I.
  apply strip_usage_total. rewrite Forall_forall in F. now apply F.
Qed.

Lemma strip_usage_null (w : World) (l : list json) (i : nat) :
  JNull ∈ l ->
  map_indexed (fun _ => strip_usage w) i l
  = Throw (Error (type_error_text w (ReadOfNull "usage"))).
Proof.
  revert i. induction l as [|x l IH]; intros i I; [now apply not_elem_of_nil in I|].
  cbn [map_indexed]. apply elem_of_cons in I. destruct I as [<-|I]; [reflexivity|].
  assert (x = JNull \/ x <> JNull) as [->|N] by (destruct x; auto; now right).
  { reflexivity. }
  destruct (strip_usage_total w x N) as (x' & ->).
  cbn [mbind outcome_bind]. now rewrite (IH (S i) I).
Qed.

Lemma select_results_kept (w : World) (c : number) (data : json) (results : list json) :
  result_list data = Some results ->
  select_results w c data = Ok (kept_results c results).
Proof. apply select_results_list. Qed.

Lemma search_reply_kept
  (w : World) (a : search_args) (r : response) (data : json) (results : list json) :
  json_body r data -> result_list data = Some results ->
  Forall (fun x => x <> JNull) (kept_results (count a) results) ->
  settle (search_reply w a r) = rendering w (returnFormat a) (kept_results (count a) results).
Proof.
  intros (O & text & B) R F.
  unfold search_reply, response_text, response_json, rendering. rewrite O, B.
  cbn [negb mbind outcome_bind mret outcome_ret].
  rewrite (select_results_kept w (count a) data results R).
  cbn [mbind outcome_bind].
  destruct (strip_usage_all w _ 0%nat F) as (kept' & S).
  rewrite S. cbn [mbind outcome_bind].
  now rewrite (format_results_strip w _ _ kept' 0%nat S).
Qed.

(** X6. The pass that deletes [usage] (lines 139-142) never shows in what
    the search returns: when none of the retained results is [null], the
    envelope is the rendering of the retained results as upstream sent them
    (or the error envelope of the exception that rendering throws).  Results
    beyond the cut are never looked at. *)
Theorem usage_pass_changes_nothing
  (w : World) (a : search_args) (s : state) (r : response) (data : json)
  (results : list json) :
  answered w (jina_search w a) s r -> json_body r data ->
  result_list data = Some results ->
  Forall (fun x => x <> JNull) (kept_results (count a) results) ->
  exists s',
    run (jina_search w a) s
    = (Ok (rendering w (returnFormat a) (kept_results (count a) results)), s').
Proof.
  intros A B R F. destruct (search_answered w a s r A) as (s' & ->).
  exists s'. now rewrite (search_reply_kept w a r data results B R F).
Qed.

Lemma usage_pass_changes_nothing_witness :
  exists s',
    run (jina_search (stub ∅ (json_response null_second)) (example_search_args 1 RF_text))
        initial
    = (Ok {| content_text :=
               JStr (join LF ["1. a"; "   https://example.com/a"; "   About a"; "   "]);
             isError := false |}, s').
Proof.
  destruct (usage_pass_changes_nothing
              (stub ∅ (json_response null_second)) (example_search_args 1 RF_text)
              initial (ok_response null_second) null_second [metered_item; JNull])
    as (s' & R).
  - eexists. split; [|reflexivity].
    eexists. split; [vm_compute; reflexivity | apply list_elem_of_here].
  - split; [reflexivity|]. eexists. reflexivity.
  - reflexivity.
  - repeat constructor. discriminate.
  - exists s'. rewrite R. reflexivity.
Defined.

(** X7. A [null] among the retained results stops the search in the usage
    pass: the envelope is the error envelope carrying the engine's message
    for reading [usage] of [null]. *)
Theorem null_result_is_an_error
  (w : World) (a : search_args) (s : state) (r : response) (data : json)
  (results : list json) :
  answered w (jina_search w a) s r -> json_body r data ->
  result_list data = Some results ->
  JNull ∈ kept_results (count a) results ->
  exists s',
    run (jina_search w a) s
    = (Ok (error_envelope (Error (type_error_text w (ReadOfNull "usage")))), s').
Proof.
  intros A (O & text & B) R N. destruct (search_answered w a s r A) as (s' & ->).
  exists s'. unfold search_reply, response_text, response_json. rewrite O, B.
  cbn [negb mbind outcome_bind mret outcome_ret].
  rewrite (select_results_kept w (count a) data results R).
  cbn [mbind outcome_bind]. now rewrite (strip_usage_null w _ 0%nat N).
Qed.

Lemma null_result_is_an_error_witness :
  exists s',
    run (jina_search (stub ∅ (json_response null_second)) (example_search_args 5 RF_text))
        initial
    = (Ok {| content_text :=
               JStr "Error: Cannot read properties of null (reading 'usage')";
             isError := true |}, s').
Proof.
  refine (null_result_is_an_error
            (stub ∅ (json_response null_second)) (example_search_args 5 RF_text)
            initial (ok_response null_second) null_second [metered_item; JNull] _ _ _ _).
  - eexists. split; [|reflexivity].
    eexists. split; [vm_compute; reflexivity | apply list_elem_of_here].
  - split; [reflexivity|]. eexists. reflexivity.
  - reflexivity.
  - apply list_elem_of_further, list_elem_of_here.
Defined.

(** ** What the renderers read *)

Lemma get_same_fields (w : World) (r r' : json) (k : string) :
  same_fields r r' -> k ∈ ["title"; "url"; "description"; "date"] ->
  get w r k = get w r' k.
Proof.
  intros (N & N' & E) K. now rewrite (get_own w r k N), (get_own w r' k N'), (E k K).
Qed.

Lemma entries_same_fields (w : World) (i : nat) (r r' : json) :
  same_fields r r' ->
  markdown_entry w i r = markdown_entry w i r'
  /\ text_entry w i r = text_entry w i r'
  /\ html_entry w i r = html_entry w i r'.
Proof.
  intros S.
  assert (forall k fallback, k ∈ ["title"; "url"; "description"; "date"] ->
            field_text w r k fallback = field_text w r' k fallback) as F.
  { intros k fallback K. unfold field_text. now rewrite (get_same_fields w r r' k S K). }
  assert (date_text w r = date_text w r') as D.
  { unfold date_text. rewrite (get_same_fields w r r' "date" S); [reflexivity|].
    repeat constructor. }
  unfold markdown_entry, text_entry, html_entry.
  rewrite !(F "title"), !(F "url"), !(F "description"), D by repeat constructor.
  auto.
Qed.

Lemma map_indexed_related {A B : Type} (R : A -> A -> Prop) (f : nat -> A -> outcome B) :
  (forall j x y, R x y -> f j x = f j y) ->
  forall l l' i, Forall2 R l l' -> map_indexed f i l = map_indexed f i l'.
Proof.
  intros F l l' i H. revert i. induction H as [|x y l l' XY _ IH]; intros i; [reflexivity|].
  cbn [map_indexed]. now rewrite (F i x y XY), (IH (S i)).
Qed.

Lemma format_results_same_fields (w : World) (f : ReturnFormat) (l l' : list json) :
  Forall2 same_fields l l' -> format_results w f l = format_results w f l'.
Proof.
  intros H. unfold format_results. destruct f.
  - now rewrite (map_indexed_related same_fields (markdown_entry w)
                   (fun j x y S => proj1 (entries_same_fields w j x y S)) l l' 0%nat H).
  - now rewrite (map_indexed_related same_fields (text_entry w)
                   (fun j x y S => proj1 (proj2 (entries_same_fields w j x y S))) l l' 0%nat H).
  - now rewrite (map_indexed_related same_fields (html_entry w)
                   (fun j x y S => proj2 (proj2 (entries_same_fields w j x y S))) l l' 0%nat H).
Qed.

Lemma kept_results_related (R : json -> json -> Prop) (c : number) (l l' : list json) :
  Forall2 R l l' -> Forall2 R (kept_results c l) (kept_results c l').
Proof.
  intros H. unfold kept_results, slice_to. rewrite <- (Forall2_length R l l' H).
  destruct (exceeds (length l) c); [|exact H].
  destruct c as [q| |]; [|exact H|constructor].
  destruct (truncate q <? 0)%Z; now apply Forall2_take.
Qed.

(** X8. What the search returns depends on the retained results only
    through their [title], [url], [description] and [date]: two upstream
    lists whose results agree on these four fields (and hold no [null]) give
    the same envelope, whatever else the results carry. *)
Theorem search_shows_four_fields_only
  (w : World) (network : request -> settled) (a : search_args) (s : state)
  (r r' : response) (data data' : json) (l l' : list json) :
  answered w (jina_search w a) s r ->
  answered (with_fetch w network) (jina_search (with_fetch w network) a) s r' ->
  json_body r data -> json_body r' data' ->
  result_list data = Some l -> result_list data' = Some l' ->
  Forall2 same_fields l l' ->
  (run (jina_search w a) s).1 = (run (jina_search (with_fetch w network) a) s).1.
Proof.
  intros A A' B B' R R' H.
  pose proof (kept_results_related same_fields (count a) l l' H) as K.
  destruct (usage_pass_changes_nothing w a s r data l A B R) as (s1 & ->).
  { eapply Forall2_Forall_l; [exact K|]. apply Forall_forall. now intros y _ x (N & _). }
  destruct (usage_pass_changes_nothing (with_fetch w network) a s r' data' l' A' B' R')
    as (s2 & ->).
  { eapply Forall2_Forall_r; [exact K|]. apply Forall_forall. now intros x _ y (_ & N & _). }
  cbn [fst]. f_equal. unfold rendering.
  now rewrite (format_results_same_fields w (returnFormat a) _ _ K).
Qed.

Lemma search_shows_four_fields_only_witness :
  (run (jina_search (stub ∅ (json_response one_metered))
          (example_search_args 5 RF_markdown)) initial).1
  = (run (jina_search
            (with_fetch (stub ∅ (json_response one_metered))
               (fun _ => json_response one_dateless))
            (example_search_args 5 RF_markdown)) initial).1.
Proof.
  refine (search_shows_four_fields_only
            (stub ∅ (json_response one_metered)) (fun _ => json_response one_dateless)
            (example_search_args 5 RF_markdown) initial
            (ok_response one_metered) (ok_response one_dateless)
            one_metered one_dateless [metered_item] [example_item "a" None]
            _ _ _ _ eq_refl eq_refl _).
  - eexists. split; [|reflexivity].
    eexists. split; [vm_compute; reflexivity | apply list_elem_of_here].
  - eexists. split; [|reflexivity].
    eexists. split; [vm_compute; reflexivity | apply list_elem_of_here].
  - split; [reflexivity|]. eexists. reflexivity.
  - split; [reflexivity|]. eexists. reflexivity.
  - repeat constructor; try discriminate.
    intros k K.
    repeat (apply elem_of_cons in K; destruct K as [->|K]; [reflexivity|]).
    now apply not_elem_of_nil in K.
Defined.

(** ** What stays local *)

(** X9. [count] and [returnFormat] never reach the upstream service: two
    searches with the same query and the same site filter hand the same
    request to [fetch]. *)
Theorem count_and_format_stay_local (w : World) (a a' : search_args) (s : state) :
  query a = query a' -> siteFilter a = siteFilter a' ->
  forall req, sends (jina_search w a) s req <-> sends (jina_search w a') s req.
Proof.
  intros Q F req. rewrite !sends_search, <- Q.
  assert (forall q, search_request w a q = search_request w a' q) as E.
  { intros q. unfold search_request, search_base. now rewrite F. }
  split; intros (q & H & ->); exists q; split; auto.
Qed.

Lemma count_and_format_stay_local_witness :
  sends (jina_search (stub ∅ (json_response five_results))
           (example_search_args 5 RF_html)) initial
        (search_request (stub ∅ (json_response five_results))
           (example_search_args 1 RF_markdown) "rust").
Proof.
  refine (proj1 (count_and_format_stay_local (stub ∅ (json_response five_results))
                   (example_search_args 1 RF_markdown) (example_search_args 5 RF_html)
                   initial eq_refl eq_refl
                   (search_request (stub ∅ (json_response five_results))
                      (example_search_args 1 RF_markdown) "rust")) _).
  exists [search_request (stub ∅ (json_response five_results))
            (example_search_args 1 RF_markdown) "rust"].
  split; [vm_compute; reflexivity | apply list_elem_of_here].
Defined.

(** X10. The handlers keep nothing between calls: the envelope a call
    returns and the request it hands to [fetch] are the same from every
    store, and a call leaves every object that existed before it as it
    was. *)
Theorem handlers_keep_no_state (w : World) :
  (forall a s1 s2,
     (run (jina_reader w a) s1).1 = (run (jina_reader w a) s2).1
     /\ forall req, sends (jina_reader w a) s1 req <-> sends (jina_reader w a) s2 req)
  /\ (forall a s1 s2,
       (run (jina_search w a) s1).1 = (run (jina_search w a) s2).1
       /\ forall req, sends (jina_search w a) s1 req <-> sends (jina_search w a) s2 req)
  /\ (forall a b s l o,
       heap s !! l = Some o ->
       heap (run (jina_reader w a) s).2 !! l = Some o
       /\ heap (run (jina_search w b) s).2 !! l = Some o).
Proof.
  split; [|split].
  - intros a s1 s2. split; [now rewrite !jina_reader_run|].
    intros req. now rewrite !sends_reader.
  - intros a s1 s2. split.
    + rewrite !jina_search_run. now destruct (encodeURIComponent w (query a)).
    + intros req. now rewrite !sends_search.
  - intros a b s l o L. rewrite jina_reader_run, jina_search_run.
    split; [now apply lookup_app_l_Some|].
    destruct (encodeURIComponent w (query b)); [now apply lookup_app_l_Some|exact L].
Qed.

Lemma handlers_keep_no_state_witness :
  heap (run (jina_reader (stub ∅ (json_response hello)) example_reader_args) one_object).2
    !! 0%nat = Some {[ "Accept" := str "text/plain" ]}
  /\ heap (run (jina_search (stub ∅ (json_response hello))
                 (example_search_args 5 RF_markdown)) one_object).2
       !! 0%nat = Some {[ "Accept" := str "text/plain" ]}.
Proof.
  exact (proj2 (proj2 (handlers_keep_no_state (stub ∅ (json_response hello))))
           example_reader_args (example_search_args 5 RF_markdown)
           one_object 0%nat {[ "Accept" := str "text/plain" ]} eq_refl).
Defined.

(** ** More on the header builder *)

Lemma authorize_twice (w : World) (p : gmap string prim) :
  authorize w (authorize w p) = authorize w p.
Proof.
  unfold authorize. destruct (getJinaApiKey w); [|reflexivity].
  apply insert_insert_eq.
Qed.

(** X11. Building headers from headers already built adds nothing.  The
    first call copies the caller's properties into a new object and sets
    [Authorization] there when a credential is set; the second call returns
    another new object holding exactly the properties of the first.  The
    first object and the caller's are left as they were, and nothing is
    sent. *)
Theorem createHeaders_twice_is_a_copy
  (w : World) (s : state) (base : loc) (entries : gmap string prim) :
  heap s !! base = Some entries ->
  exists (first second : loc) (s1 s2 : state) (out : gmap string prim),
    run (createHeaders w (Some base)) s = (Ok first, s1)
    /\ run (createHeaders w (Some first)) s1 = (Ok second, s2)
    /\ first <> second /\ base <> first /\ base <> second
    /\ heap s1 !! first = Some out
    /\ heap s2 !! first = Some out
    /\ heap s2 !! second = Some out
    /\ heap s2 !! base = Some entries
    /\ (forall k, k <> "Authorization" -> out !! k = entries !! k)
    /\ out !! "Authorization"
       = match getJinaApiKey w with
         | Some credential => Some (str ("Bearer " +:+ credential))
         | None => entries !! "Authorization"
         end
    /\ fetched s2 = fetched s.
Proof.
  intros B. pose proof (lookup_lt_Some _ _ _ B) as L.
  eexists _, _, _, _, (authorize w entries).
  split; [apply createHeaders_run|]. split; [apply createHeaders_run|].
  cbn [heap fetched]. rewrite B, lookup_last. cbn [default from_option]. unfold id.
  rewrite authorize_twice, length_app. cbn [length].
  split; [lia|]. split; [lia|]. split; [lia|].
  split; [reflexivity|].
  split; [apply lookup_app_l_Some, lookup_last|].
  split.
  { replace (length (heap s) + 1)%nat with (length (heap s ++ [authorize w entries]))
      by (rewrite length_app; reflexivity).
    apply lookup_last. }
  split; [now do 2 apply lookup_app_l_Some|].
  split; [intros k K; now apply authorize_other|].
  split; [|reflexivity].
  unfold authorize. destruct (getJinaApiKey w); [apply lookup_insert_eq|reflexivity].
Qed.

Lemma createHeaders_twice_is_a_copy_witness :
  exists (first second : loc) (s1 s2 : state) (out : gmap string prim),
    run (createHeaders (stub {[ "JINA_API_KEY" := "secret" ]} (json_response hello))
           (Some 0%nat)) one_object = (Ok first, s1)
    /\ run (createHeaders (stub {[ "JINA_API_KEY" := "secret" ]} (json_response hello))
             (Some first)) s1 = (Ok second, s2)
    /\ first <> second
    /\ heap s2 !! first = Some out
    /\ heap s2 !! second = Some out
    /\ heap s2 !! 0%nat = Some {[ "Accept" := str "text/plain" ]}
    /\ out !! "Accept" = Some (str "text/plain")
    /\ out !! "Authorization" = Some (str "Bearer secret").
Proof.
  destruct (createHeaders_twice_is_a_copy
              (stub {[ "JINA_API_KEY" := "secret" ]} (json_response hello))
              one_object 0%nat {[ "Accept" := str "text/plain" ]} eq_refl)
    as (first & second & s1 & s2 & out & R1 & R2 & D & _ & _ & _ & F & S & B & O & A & _).
  exists first, second, s1, s2, out.
  repeat (split; [assumption|]). split.
  - rewrite (O "Accept"); [reflexivity|discriminate].
  - rewrite A. reflexivity.
Defined.

(** X12. Called without an argument, the header builder returns a new
    object that holds the [Authorization] header alone when a credential is
    set, and no property at all when none is; the objects of the store are
    left as they were. *)
Theorem createHeaders_without_argument (w : World) (s : state) :
  exists (headers : loc) (s' : state),
    run (createHeaders w None) s = (Ok headers, s')
    /\ heap s !! headers = None
    /\ heap s' !! headers
       = Some match getJinaApiKey w with
              | Some credential => {[ "Authorization" := str ("Bearer " +:+ credential) ]}
              | None => ∅
              end
    /\ take (length (heap s)) (heap s') = heap s
    /\ fetched s' = fetched s.
Proof.
  eexists _, _. split; [apply createHeaders_default_run|]. cbn [heap fetched].
  split; [apply lookup_ge_None; lia|]. split; [|split; [|reflexivity]].
  - rewrite lookup_last. unfold authorize. now destruct (getJinaApiKey w).
  - now rewrite take_app_length.
Qed.

(** ** A count that covers the list *)

Lemma exceeds_at_least (len : nat) (count : number) :
  at_least count len -> exceeds len count = false.
Proof.
  destruct count as [q| |]; [|reflexivity|contradiction].
  intros L. unfold exceeds. apply Qle_bool_iff in L. rewrite L.
  cbn [negb]. now rewrite andb_false_r.
Qed.

(** X13. When [count] is at least the length of the upstream result list
    (or infinite), nothing is cut: the search returns the rendering of every
    item of the list. *)
Theorem search_keeps_everything_when_count_covers_the_list
  (w : World) (a : search_args) (s : state) (r : response) (data : json)
  (results : list json) :
  answered w (jina_search w a) s r -> json_body r data ->
  result_list data = Some results ->
  Forall (fun x => is_item x = true) results ->
  at_least (count a) (length results) ->
  exists out s',
    format_results w (returnFormat a) results = Ok out
    /\ run (jina_search w a) s = (Ok {| content_text := JStr out; isError := false |}, s').
Proof.
  intros A B R F C. destruct (search_answered w a s r A) as (s' & S).
  destruct (search_reply_list w a r data results results B R) as (out & FO & SR).
  - now rewrite (exceeds_at_least _ _ C).
  - exact F.
  - exists out, s'. split; [exact FO|]. now rewrite S, SR.
Qed.

Lemma search_keeps_everything_when_count_covers_the_list_witness :
  exists s',
    run (jina_search (stub ∅ (json_response one_dateless)) (example_search_args 1 RF_text))
        initial
    = (Ok {| content_text :=
               JStr (join LF ["1. a"; "   https://example.com/a"; "   About a"; "   "]);
             isError := false |}, s').
Proof.
  destruct (search_keeps_everything_when_count_covers_the_list
              (stub ∅ (json_response one_dateless)) (example_search_args 1 RF_text)
              initial (ok_response one_dateless) one_dateless [example_item "a" None])
    as (out & s' & FO & R).
  - eexists. split; [|reflexivity].
    eexists. split; [vm_compute; reflexivity | apply list_elem_of_here].
  - split; [reflexivity|]. eexists. reflexivity.
  - reflexivity.
  - repeat constructor.
  - cbn. unfold Qle. cbn. lia.
  - exists s'. rewrite R. vm_compute in FO. injection FO as <-. reflexivity.
Defined.

(** ** The entries of the renderers *)

Lemma member_other (k k' : string) (v : json) (ms : list (string * json)) :
  k <> k' -> member k ((k', v) :: ms) = member k ms.
Proof. intros N. cbn [member]. destruct (decide (k' = k)); [congruence|reflexivity]. Qed.

(** X14. A result whose title is absent, [null], empty or otherwise falsy is
    rendered by all three renderers exactly as if its title were
    [Untitled]. *)
Theorem falsy_title_renders_as_Untitled
  (w : World) (i : nat) (ms : list (string * json)) :
  truthy (member "title" ms) = false ->
  markdown_entry w i (JObj ms) = markdown_entry w i (JObj (("title", JStr "Untitled") :: ms))
  /\ text_entry w i (JObj ms) = text_entry w i (JObj (("title", JStr "Untitled") :: ms))
  /\ html_entry w i (JObj ms) = html_entry w i (JObj (("title", JStr "Untitled") :: ms)).
Proof.
  intros T.
  assert (field_text w (JObj ms) "title" "Untitled"
          = field_text w (JObj (("title", JStr "Untitled") :: ms)) "title" "Untitled") as E.
  { unfold field_text. cbn [get mbind outcome_bind mret outcome_ret].
    rewrite (or_else_falsy _ _ T). reflexivity. }
  assert (forall k fallback, k <> "title" ->
            field_text w (JObj ms) k fallback
            = field_text w (JObj (("title", JStr "Untitled") :: ms)) k fallback) as F.
  { intros k fallback N. unfold field_text. cbn [get]. now rewrite member_other. }
  assert (date_text w (JObj ms) = date_text w (JObj (("title", JStr "Untitled") :: ms))) as D.
  { unfold date_text. cbn [get]. now rewrite member_other. }
  unfold markdown_entry, text_entry, html_entry.
  rewrite E, D, !(F "url"), !(F "description") by discriminate. auto.
Qed.

Lemma falsy_title_renders_as_Untitled_witness :
  markdown_entry (stub ∅ (json_response hello)) 0 untitled_item
  = Ok (join LF ["1. **Untitled**"; "   https://example.com/u"; "   About u"; "   "; ""]).
Proof.
  unfold untitled_item.
  rewrite (proj1 (falsy_title_renders_as_Untitled (stub ∅ (json_response hello)) 0
                    [("url", JStr "https://example.com/u"); ("description", JStr "About u")]
                    eq_refl)).
  vm_compute. reflexivity.
Defined.

Lemma map_indexed_lookup {A B : Type} (f : nat -> A -> outcome B) (l : list A) :
  forall (i : nat) (ys : list B),
    map_indexed f i l = Ok ys ->
    length ys = length l
    /\ forall k y, ys !! k = Some y -> exists x, l !! k = Some x /\ f (i + k)%nat x = Ok y.
Proof.
  induction l as [|x l IH]; intros i ys.
  - intros [= <-]. split; [reflexivity|]. intros k y H. now rewrite lookup_nil in H.
  - cbn [map_indexed]. destruct (f i x) as [y0|] eqn:Y; [|discriminate].
    cbn [mbind outcome_bind].
    destruct (map_indexed f (S i) l) as [ys0|] eqn:L; [|discriminate].
    cbn [mbind outcome_bind mret outcome_ret]. intros [= <-].
    destruct (IH (S i) ys0 L) as (Len & Each). split; [cbn; now rewrite Len|].
    intros [|k] y H.
    + injection H as <-. exists x. split; [reflexivity|]. now rewrite Nat.add_0_r.
    + destruct (Each k y H) as (x' & X & FX). exists x'. split; [exact X|].
      now rewrite <- Nat.add_succ_comm.
Qed.

(** X15. The renderers emit one entry per result, in the order of the list:
    the markdown and text entries are numbered from 1 ([k+1. ] before entry
    [k]), joined by a blank line, and the html entries are [<li>...</li>]
    elements set side by side in a single [<ol>]. *)
Theorem renderers_emit_one_entry_per_result
  (w : World) (f : ReturnFormat) (l : list json) :
  Forall (fun r => is_item r = true) l ->
  exists entries : list string,
    length entries = length l
    /\ format_results w f l
       = Ok match f with
            | RF_markdown => join LF entries
            | RF_text => join (LF +:+ LF) entries
            | RF_html => "<ol>" +:+ join EmptyString entries +:+ "</ol>"
            end
    /\ forall k e,
         entries !! k = Some e ->
         exists r,
           l !! k = Some r
           /\ match f with
              | RF_markdown =>
                  markdown_entry w k r = Ok e
                  /\ starts_with e (pretty (k + 1)%nat +:+ ". **")
                  /\ ends_with e LF
              | RF_text =>
                  text_entry w k r = Ok e /\ starts_with e (pretty (k + 1)%nat +:+ ". ")
              | RF_html =>
                  html_entry w k r = Ok e /\ starts_with e "<li>" /\ ends_with e "</li>"
              end.
Proof.
  intros F. destruct (format_results_total w f l F) as (out & FO).
  rewrite Forall_forall in F.
  assert (forall r, r ∈ l ->
            exists t u d dt,
              field_text w r "title" "Untitled" = Ok t
              /\ field_text w r "url" EmptyString = Ok u
              /\ field_text w r "description" EmptyString = Ok d
              /\ date_text w r = Ok dt) as P.
  { intros r I%F.
    destruct (field_text_item w r "title" "Untitled" I) as (t & T); [repeat constructor|].
    destruct (field_text_item w r "url" EmptyString I) as (u & U); [repeat constructor|].
    destruct (field_text_item w r "description" EmptyString I) as (d & D);
      [repeat constructor|].
    exists t, u, d. eexists. repeat split; try eassumption. now apply date_text_item. }
  unfold format_results in *. destruct f.
  - destruct (map_indexed (markdown_entry w) 0 l) as [entries|] eqn:M; [|discriminate].
    destruct (map_indexed_lookup _ _ _ _ M) as (Len & Each).
    exists entries. split; [exact Len|]. split; [reflexivity|].
    intros k e H. destruct (Each k e H) as (r & L & E). exists r. split; [exact L|].
    cbn [Nat.add] in E. split; [exact E|].
    destruct (P r) as (t & u & d & dt & T & U & D & DT); [now apply list_elem_of_lookup_2 in L|].
    unfold markdown_entry in E. rewrite T, U, D, DT in E. injection E as <-. split.
    + eexists. now rewrite append_assoc.
    + exists (pretty (k + 1)%nat +:+ ". **" +:+ t +:+ "**" +:+ LF
                +:+ "   " +:+ u +:+ LF +:+ "   " +:+ d +:+ LF +:+ "   " +:+ dt).
      now rewrite !append_assoc.
  - destruct (map_indexed (text_entry w) 0 l) as [entries|] eqn:M; [|discriminate].
    destruct (map_indexed_lookup _ _ _ _ M) as (Len & Each).
    exists entries. split; [exact Len|]. split; [reflexivity|].
    intros k e H. destruct (Each k e H) as (r & L & E). exists r. split; [exact L|].
    cbn [Nat.add] in E. split; [exact E|].
    destruct (P r) as (t & u & d & dt & T & U & D & DT); [now apply list_elem_of_lookup_2 in L|].
    unfold text_entry in E. rewrite T, U, D, DT in E. injection E as <-.
    eexists. now rewrite append_assoc.
  - destruct (map_indexed (html_entry w) 0 l) as [entries|] eqn:M; [|discriminate].
    destruct (map_indexed_lookup _ _ _ _ M) as (Len & Each).
    exists entries. split; [exact Len|]. split; [reflexivity|].
    intros k e H. destruct (Each k e H) as (r & L & E). exists r. split; [exact L|].
    cbn [Nat.add] in E.
    assert (html_entry w k r = Ok e) as E' by exact E. split; [exact E'|].
    destruct (P r) as (t & u & d & dt & T & U & D & DT); [now apply list_elem_of_lookup_2 in L|].
    unfold html_entry in E. rewrite T, U, D, DT in E. injection E as <-. split.
    + eexists. reflexivity.
    + exists ("<li><strong>" +:+ t +:+ "</strong><br>" +:+ LF
                +:+ "           <a href=" +:+ DQ +:+ u +:+ DQ +:+ ">" +:+ u +:+ "</a><br>" +:+ LF
                +:+ "           " +:+ d +:+ "<br>" +:+ LF +:+ "           " +:+ dt).
      now rewrite !append_assoc.
Qed.

Lemma renderers_emit_one_entry_per_result_witness :
  exists entries : list string,
    length entries = 5%nat
    /\ format_results (stub ∅ (json_response five_results)) RF_html five_items
       = Ok ("<ol>" +:+ join EmptyString entries +:+ "</ol>")
    /\ forall k e,
         entries !! k = Some e ->
         exists r,
           five_items !! k = Some r
           /\ html_entry (stub ∅ (json_response five_results)) k r = Ok e
           /\ starts_with e "<li>" /\ ends_with e "</li>".
Proof.
  exact (renderers_emit_one_entry_per_result
           (stub ∅ (json_response five_results)) RF_html five_items
           ltac:(repeat constructor)).
Defined.

(** ** Startup *)

(** X16. The startup diagnostics show the length of the credential and
    nothing else of it: with two credentials of the same length the process
    prints the same lines and ends the same way. *)
Theorem startup_shows_only_the_length_of_the_key
  (w1 w2 : World) (connect : outcome unit) (p : process) (key1 key2 : string) :
  getJinaApiKey w1 = Some key1 -> getJinaApiKey w2 = Some key2 ->
  utf16_length key1 = utf16_length key2 ->
  start w1 connect p = start w2 connect p.
Proof.
  intros K1 K2 L. unfold start, main. rewrite K1, K2.
  rewrite (getJinaApiKey_nonempty w1 key1 K1), (getJinaApiKey_nonempty w2 key2 K2).
  now rewrite L.
Qed.

Lemma startup_shows_only_the_length_of_the_key_witness :
  start (stub {[ "JINA_API_KEY" := "jina_0123456789abcdef" ]} (json_response hello))
        (Ok tt) silent
  = start (stub {[ "JINA_API_KEY" := "jina_fedcba9876543210" ]} (json_response hello))
          (Ok tt) silent.
Proof.
  exact (startup_shows_only_the_length_of_the_key
           (stub {[ "JINA_API_KEY" := "jina_0123456789abcdef" ]} (json_response hello))
           (stub {[ "JINA_API_KEY" := "jina_fedcba9876543210" ]} (json_response hello))
           (Ok tt) silent "jina_0123456789abcdef" "jina_fedcba9876543210"
           eq_refl eq_refl eq_refl).
Defined.

(** The lines a start prints, from a silent process. *)
Lemma start_console (w : World) (connect : outcome unit) :
  console (start w connect silent).2
  = match getJinaApiKey w with
    | Some key =>
        (console_error,
         [Message ("Jina AI API key found with length " +:+ pretty (utf16_length key))])
          :: (if (utf16_length key <? 10)%nat
              then [(console_warn,
                     [Message "Warning: JINA_API_KEY seems too short. Please verify your API key."])]
              else [])
    | None =>
        [(console_error, [Message "No Jina AI API key found. Some features may be limited."])]
    end
    ++ match connect with
       | Ok _ => []
       | Throw error => [(console_error, [Message "Server error:"; Caught error])]
       end.
Proof.
  unfold start, main. destruct (getJinaApiKey w) as [key|] eqn:K.
  - rewrite (getJinaApiKey_nonempty w key K).
    destruct (utf16_length key <? 10)%nat, connect as [[]|error]; reflexivity.
  - destruct connect as [[]|error]; reflexivity.
Qed.

(** X17. What a start prints and how it ends: the process exits, with
    status 1, exactly when connecting the transport fails, and the last line
    printed is then [Server error:] with the error; the too-short warning is
    printed exactly when a credential is set and shorter than 10; the
    no-key line exactly when no credential is set; and the [Fatal error]
    handler of the last statement never runs. *)
Theorem startup_report (w : World) (connect : outcome unit) :
  exit_code (start w connect silent).2
  = match connect with
    | Ok _ => None
    | Throw _ => Some 1%nat
    end
  /\ ((console_warn,
       [Message "Warning: JINA_API_KEY seems too short. Please verify your API key."])
        ∈ console (start w connect silent).2
      <-> exists key, getJinaApiKey w = Some key /\ (utf16_length key < 10)%nat)
  /\ ((console_error, [Message "No Jina AI API key found. Some features may be limited."])
        ∈ console (start w connect silent).2
      <-> getJinaApiKey w = None)
  /\ (forall error,
        connect = Throw error ->
        last (console (start w connect silent).2)
        = Some (console_error, [Message "Server error:"; Caught error]))
  /\ (forall args,
        (console_error, Message "Fatal error in main():" :: args)
          ∉ console (start w connect silent).2).
Proof.
  split.
  { unfold start, main. destruct (getJinaApiKey w) as [key|] eqn:K.
    - rewrite (getJinaApiKey_nonempty w key K).
      destruct (utf16_length key <? 10)%nat, connect as [[]|error]; reflexivity.
    - destruct connect as [[]|error]; reflexivity. }
  rewrite start_console. split; [|split; [|split]].
  - split.
    + intros H. apply elem_of_app in H. destruct H as [H|H].
      * destruct (getJinaApiKey w) as [key|].
        -- apply elem_of_cons in H. destruct H as [H|H]; [discriminate H|].
           destruct (utf16_length key <? 10)%nat eqn:T;
             [|now apply not_elem_of_nil in H].
           exists key. split; [reflexivity|]. now apply Nat.ltb_lt.
        -- apply list_elem_of_singleton in H. discriminate H.
      * destruct connect as [[]|error]; [now apply not_elem_of_nil in H|].
        apply list_elem_of_singleton in H. discriminate H.
    + intros (key & -> & L). apply Nat.ltb_lt in L. rewrite L.
      apply elem_of_app. left. apply list_elem_of_further, list_elem_of_here.
  - split.
    + intros H. destruct (getJinaApiKey w) as [key|]; [exfalso|reflexivity].
      apply elem_of_app in H. destruct H as [H|H].
      * apply elem_of_cons in H. destruct H as [H|H].
        -- discriminate H.
        -- destruct (utf16_length key <? 10)%nat; [|now apply not_elem_of_nil in H].
           apply list_elem_of_singleton in H. discriminate H.
      * destruct connect as [[]|error]; [now apply not_elem_of_nil in H|].
        apply list_elem_of_singleton in H. discriminate H.
    + intros ->. apply elem_of_app. left. apply list_elem_of_here.
  - intros error ->. apply last_snoc.
  - intros args H. apply elem_of_app in H. destruct H as [H|H].
    + destruct (getJinaApiKey w) as [key|].
      * apply elem_of_cons in H. destruct H as [H|H].
        -- discriminate H.
        -- destruct (utf16_length key <? 10)%nat; [|now apply not_elem_of_nil in H].
           apply list_elem_of_singleton in H. discriminate H.
      * apply list_elem_of_singleton in H. discriminate H.
    + destruct connect as [[]|error]; [now apply not_elem_of_nil in H|].
      apply list_elem_of_singleton in H. discriminate H.
Qed.

Lemma startup_report_witness :
  last (console (start (stub {[ "JINA_API_KEY" := "short" ]} (json_response hello))
                   (Throw (Error "EPIPE")) silent).2)
  = Some (console_error, [Message "Server error:"; Caught (Error "EPIPE")])
  /\ (console_warn,
      [Message "Warning: JINA_API_KEY seems too short. Please verify your API key."])
       ∈ console (start (stub {[ "JINA_API_KEY" := "short" ]} (json_response hello))
                    (Throw (Error "EPIPE")) silent).2.
Proof.
  destruct (startup_report (stub {[ "JINA_API_KEY" := "short" ]} (json_response hello))
              (Throw (Error "EPIPE"))) as (_ & W & _ & L & _).
  split; [exact (L (Error "EPIPE") eq_refl)|].
  apply W. exists "short". split; [reflexivity|]. apply Nat.ltb_lt. reflexivity.
Defined.

(** ** The failure policy *)













